(** * base-converter: the release packaging script [build.py]

    A shallow embedding of the build script and the properties of its
    pipeline: platform detection, directory cleaning, the packager
    configuration, the build-and-rename step, the smoke test, the
    installer scripts and the process exit code.

    The script is a sequence of file-system calls, subprocess calls and
    prints.  It is modelled in a small state-and-exception monad over

    - a file tree (path -> entry),
    - a log of the observable actions of the script, in order,

    and is parameterised by a [Host]: everything the script reads from
    its environment (platform strings, clock, line terminator, the
    behaviour of the programs it launches, a failing [shutil.rmtree],
    a file that cannot be opened, a standard output that cannot be
    flushed).

    What the model takes from the Python library rather than from the
    script is written down once, in the section "Library calls".  Text is
    ASCII ([string]); files opened in text mode hold the text with every
    line feed replaced by the line terminator of the host, as Python's
    [open(name, 'w')] does.  Paths are names: the parts the script puts
    into a file name (system, architecture) are taken as they come, and
    a name is looked up in the tree as it is written. *)

From Stdlib Require Import String Ascii List Bool ZArith NArith Lia.
Import ListNotations.
Local Open Scope list_scope.
Local Open Scope string_scope.

(* ================================================================== *)
(** ** Text *)

Module Text.

(** Line feed and the double quote, which the templates contain. *)
Definition LF : ascii := "010"%char.
Definition nl : string := String LF EmptyString.
Definition dq : string := String "034"%char EmptyString.

(** [s] between double quotes. *)
Definition quoted (s : string) : string := dq ++ s ++ dq.

(** The lines of a template, each one ended by a line feed. *)
Fixpoint unlines (ls : list string) : string :=
  match ls with
  | [] => EmptyString
  | l :: rest => l ++ nl ++ unlines rest
  end.

(** [str.lower] on ASCII text, which the strings of [platform] are: the
    letters A-Z are mapped to a-z, every other byte is left as it is. *)
Definition lower_char (c : ascii) : ascii :=
  let n := nat_of_ascii c in
  if (65 <=? n)%nat && (n <=? 90)%nat then ascii_of_nat (n + 32) else c.

Fixpoint lower (s : string) : string :=
  match s with
  | EmptyString => EmptyString
  | String c t => String (lower_char c) (lower t)
  end.

(** [str.startswith]. *)
Definition startswith (s pre : string) : bool := String.prefix pre s.

(** [needle in hay]. *)
Fixpoint contains (needle hay : string) : bool :=
  match hay with
  | EmptyString => String.prefix needle EmptyString
  | String _ t => String.prefix needle hay || contains needle t
  end.

(** [str.isspace] on ASCII: tab, LF, VT, FF, CR, the separators
    FS GS RS US and the space. *)
Definition isspace (c : ascii) : bool :=
  let n := nat_of_ascii c in
  ((9 <=? n)%nat && (n <=? 13)%nat) || ((28 <=? n)%nat && (n <=? 32)%nat).

Fixpoint lstrip (s : string) : string :=
  match s with
  | EmptyString => EmptyString
  | String c t => if isspace c then lstrip t else s
  end.

(** Strips the white space at the end: a character is kept when
    something that is not white space follows it or it is not white
    space itself. *)
Fixpoint rstrip (s : string) : string :=
  match s with
  | EmptyString => EmptyString
  | String c t =>
      match rstrip t with
      | EmptyString => if isspace c then EmptyString else String c EmptyString
      | t' => String c t'
      end
  end.

(** [str.strip()]. *)
Definition strip (s : string) : string := rstrip (lstrip s).

(** Every occurrence of the character [c] replaced by the text [by]. *)
Fixpoint replace_char (c : ascii) (by_ : string) (s : string) : string :=
  match s with
  | EmptyString => EmptyString
  | String x t =>
      (if Ascii.eqb x c then by_ else String x EmptyString)
        ++ replace_char c by_ t
  end.

(** ["=" * 40] and the like. *)
Fixpoint repeat_str (s : string) (n : nat) : string :=
  match n with
  | O => EmptyString
  | S k => s ++ repeat_str s k
  end.

End Text.
Import Text.

(* ================================================================== *)
(** ** The world of the script *)

(** An entry of the file tree: a regular file with the bytes it holds
    and its permission bits, or a directory. *)
Inductive entry : Type :=
| File (content : string) (mode : N)
| Dir.

(** The file tree, by path relative to the working directory, with [/]
    between the parts of a path. *)
Definition tree : Type := string -> option entry.

(** [p] lies below the directory [d]. *)
Definition under (d p : string) : bool := String.prefix (d ++ "/") p.

(** The exceptions the script can meet.  [OtherException] stands for
    every other subclass of [Exception] (OSError and its subclasses,
    UnicodeDecodeError, ...); [SystemExit] is not a subclass of
    [Exception]. *)
Inductive exn : Type :=
| CalledProcessError (cmd : list string) (returncode : Z) (output stderr : string)
| TimeoutExpired (cmd : list string) (timeout : N)
| OtherException (what : string)
| SystemExit (code : Z).

(** What a launched program does: it ends after [elapsed] units of time
    with an exit code and the text of its two output streams, it never
    ends, it cannot be started at all, or it ends having written, on
    one of its streams, bytes that are no text in the host's encoding. *)
Inductive behaviour : Type :=
| Exits (elapsed : N) (returncode : Z) (out err : string)
| Hangs
| CannotStart (what : string)
| Undecodable (elapsed : N) (returncode : Z).

(** Everything the script reads from its environment. *)
Record Host : Type := {
  platform_system : string;          (* platform.system() *)
  platform_machine : string;         (* platform.machine() *)
  sys_executable : string;           (* sys.executable *)
  os_sep : string;                   (* separator shown by str(Path) *)
  os_linesep : string;               (* written for LF in text mode *)
  umask : N;                         (* bits cleared in a new file's mode *)
  pyinstaller_version : option string; (* None: import PyInstaller fails *)
  clock : string;  (* datetime.now().strftime('%Y-%m-%d %H:%M:%S') *)
  exn_text : exn -> string;          (* str(e) *)
  (* the program launched by a command line, and what it leaves on disk *)
  launch : list string -> tree -> behaviour * tree;
  (* shutil.rmtree of a directory failing part-way: the error, and the
     entries below the directory already removed when it is raised *)
  rmtree_fault : string -> tree -> option (string * (string -> bool));
  (* open(name, 'w') refused by the host (the name or its directory may
     not be written): the error *)
  open_fault : string -> tree -> option string;
  (* the standard output cannot be flushed when the interpreter shuts
     down (a closed pipe, a full device) *)
  stdout_lost : bool
}.

(** The observable actions of the script. *)
Inductive event : Type :=
| Print (line : string)
| Run (cmd : list string)
| Wrote (path text : string)
| Chmod (path : string) (mode : N)
| Unlinked (path : string)
| Renamed (src dst : string)
| Rmtree (path : string).

Record state : Type := mkState {
  files : tree;
  log : list event
}.

(** How a computation ends: with a value, with an exception, or never. *)
Inductive result (A : Type) : Type :=
| Ret (a : A)
| Raise (e : exn)
| Hang.
Arguments Ret {A} a.
Arguments Raise {A} e.
Arguments Hang {A}.

(** State and exceptions. *)
Definition M (A : Type) : Type := state -> result A * state.

Definition ret {A} (a : A) : M A := fun s => (Ret a, s).

Definition bind {A B} (m : M A) (k : A -> M B) : M B :=
  fun s =>
    match m s with
    | (Ret a, s') => k a s'
    | (Raise e, s') => (Raise e, s')
    | (Hang, s') => (Hang, s')
    end.

Definition raise {A} (e : exn) : M A := fun s => (Raise e, s).

(** [try: body except ...]: [handler e] is [None] when no clause of the
    statement matches [e], which then propagates. *)
Definition try_except {A} (body : M A) (handler : exn -> option (M A)) : M A :=
  fun s =>
    match body s with
    | (Raise e, s') =>
        match handler e with
        | Some recover => recover s'
        | None => (Raise e, s')
        end
    | other => other
    end.

Declare Scope py_scope.
Delimit Scope py_scope with py.
Notation "x <- m ;; k" := (bind m (fun x => k))
  (at level 61, m at next level, right associativity) : py_scope.
Notation "m ;; k" := (bind m (fun _ => k))
  (at level 61, right associativity) : py_scope.
Local Open Scope py_scope.

(** [for x in xs: body]. *)
Fixpoint for_each {A} (xs : list A) (body : A -> M unit) : M unit :=
  match xs with
  | [] => ret tt
  | x :: rest => body x ;; for_each rest body
  end.

Definition emit (e : event) : M unit :=
  fun s => (Ret tt, mkState (files s) (log s ++ [e])%list).

Definition set_files (t : tree) : M unit :=
  fun s => (Ret tt, mkState t (log s)).

Definition get_files : M tree := fun s => (Ret (files s), s).

(* ================================================================== *)
(** ** Library calls

    The success behaviour of each call is the library's.  Of the ways
    they can fail the model keeps those the script or its specification
    deal with: a launched program that fails, hangs or cannot start, a
    program whose output cannot be decoded, a failing [rmtree], a file
    that cannot be opened for writing, and [unlink], [rename], [chmod]
    and [rmtree] applied to a missing entry or to the wrong kind of
    entry.  What the script prints is taken to fit the buffer of the
    standard output, so that [print] itself never raises; whether the
    buffer can be flushed is seen when the interpreter shuts down. *)

Definition tree_set (p : string) (e : entry) (t : tree) : tree :=
  fun q => if String.eqb q p then Some e else t q.

Definition tree_remove (p : string) (t : tree) : tree :=
  fun q => if String.eqb q p then None else t q.

(** The tree without [d] and without everything below [d]. *)
Definition tree_prune (d : string) (t : tree) : tree :=
  fun q => if String.eqb q d || under d q then None else t q.

(** The tree without the entries below [d] that satisfy [gone]. *)
Definition tree_prune_some (d : string) (gone : string -> bool) (t : tree) : tree :=
  fun q => if under d q && gone q then None else t q.

(** The entry at [src], with what is below it, moved to [dst]. *)
Definition tree_move (src dst : string) (t : tree) : tree :=
  fun q =>
    if String.eqb q dst then t src
    else if under dst q
      then t (src ++ substring (String.length dst)
                      (String.length q - String.length dst) q)
    else if String.eqb q src || under src q then None
    else t q.

(** The permission bits 0o666 and 0o755, and the three bits 0o111 that
    let the owner, the group and the others execute the file. *)
Definition mode_0o666 : N := 438.
Definition mode_0o755 : N := 493.

Section Library.

Variable h : Host.

(** [print(line)]. *)
Definition print (line : string) : M unit := emit (Print line).

(** [os.path.exists(p)], [Path.exists()]. *)
Definition path_exists (p : string) : M bool :=
  fun s => (Ret (match files s p with Some _ => true | None => false end), s).

(** [Path('a') / 'b'] and [str(path)]. *)
Definition Path_join (a b : string) : string := a ++ "/" ++ b.
Definition fspath (p : string) : string := replace_char "/"%char (os_sep h) p.

(** Text written in text mode: each LF becomes the host's terminator. *)
Definition text_mode (text : string) : string :=
  replace_char LF (os_linesep h) text.

(** [open(p, 'w')] raises when a directory holds the name, and when
    the host refuses. *)
Definition open_error (t : tree) (p : string) : option string :=
  match t p with
  | Some Dir => Some "IsADirectoryError"
  | _ => open_fault h p t
  end.

(** [with open(p, 'w') as f: f.write(text)], a write in text mode: the
    file is created if it is not there, with mode 0o666 less the umask,
    and truncated if it is, keeping its mode.  When the file cannot be
    opened the error is raised and nothing is written. *)
Definition mode_after_write (t : tree) (p : string) : N :=
  match t p with
  | Some (File _ m) => m
  | _ => N.ldiff mode_0o666 (umask h)
  end.

Definition write_text (p text : string) : M unit :=
  t <- get_files ;;
  match open_error t p with
  | Some what => raise (OtherException what)
  | None =>
      set_files (tree_set p (File (text_mode text) (mode_after_write t p)) t) ;;
      emit (Wrote p text)
  end.

(** [os.chmod(p, mode)]. *)
Definition chmod (p : string) (mode : N) : M unit :=
  t <- get_files ;;
  match t p with
  | Some (File c _) => set_files (tree_set p (File c mode) t) ;; emit (Chmod p mode)
  | Some Dir => emit (Chmod p mode)
  | None => raise (OtherException "FileNotFoundError")
  end.

(** [Path.unlink()]: removes a regular file. *)
Definition unlink (p : string) : M unit :=
  t <- get_files ;;
  match t p with
  | Some (File _ _) => set_files (tree_remove p t) ;; emit (Unlinked p)
  | Some Dir => raise (OtherException "IsADirectoryError")
  | None => raise (OtherException "FileNotFoundError")
  end.

(** [Path.rename(dst)]: the entry at [src] moves to [dst] with what is
    below it.  Onto a name that is taken Windows raises; elsewhere a
    file replaces a file, a file and a directory do not replace each
    other, and a directory replaces a directory, which is taken to be
    empty (the script renames onto a name it has found free or has
    freed). *)
Definition rename (src dst : string) : M unit :=
  t <- get_files ;;
  match t src, t dst with
  | None, _ => raise (OtherException "FileNotFoundError")
  | Some _, None => set_files (tree_move src dst t) ;; emit (Renamed src dst)
  | Some e, Some d =>
      if lower (platform_system h) =? "windows"
      then raise (OtherException "FileExistsError")
      else
        match e, d with
        | File _ _, Dir => raise (OtherException "IsADirectoryError")
        | Dir, File _ _ => raise (OtherException "NotADirectoryError")
        | _, _ => set_files (tree_move src dst t) ;; emit (Renamed src dst)
        end
  end.

(** [shutil.rmtree(d)]: removes the directory [d] with everything below
    it.  It raises on a regular file, and where the host makes it fail
    it raises after having removed part of what is below [d]. *)
Definition rmtree (d : string) : M unit :=
  t <- get_files ;;
  match t d with
  | None => raise (OtherException "FileNotFoundError")
  | Some (File _ _) => raise (OtherException "NotADirectoryError")
  | Some Dir =>
      match rmtree_fault h d t with
      | Some (what, gone) =>
          set_files (tree_prune_some d gone t) ;; raise (OtherException what)
      | None => set_files (tree_prune d t) ;; emit (Rmtree d)
      end
  end.

(** The value [subprocess.run] returns. *)
Record CompletedProcess : Type := {
  returncode : Z;
  stdout : string;
  stderr : string
}.

(** [subprocess.run(cmd, check=..., timeout=..., capture_output=True,
    text=True)]: the program runs and leaves its changes on disk; it is
    killed, and [TimeoutExpired] raised, when a timeout is given and it
    has not ended by then; once it has ended its output is decoded,
    which raises [UnicodeDecodeError] before the exit code is looked
    at; with [check] a nonzero exit code raises [CalledProcessError];
    without a timeout a program that never ends is waited for forever. *)
Definition subprocess_run (cmd : list string) (check : bool) (timeout : option N)
  : M CompletedProcess :=
  emit (Run cmd) ;;
  t <- get_files ;;
  let '(b, t') := launch h cmd t in
  match b with
  | CannotStart what => raise (OtherException what)
  | Hangs =>
      set_files t' ;;
      match timeout with
      | Some limit => raise (TimeoutExpired cmd limit)
      | None => fun s => (Hang, s)
      end
  | Exits elapsed rc out err =>
      set_files t' ;;
      match timeout with
      | Some limit =>
          if (limit <? elapsed)%N then raise (TimeoutExpired cmd limit)
          else if check && negb (rc =? 0)%Z
            then raise (CalledProcessError cmd rc out err)
          else ret {| returncode := rc; stdout := out; stderr := err |}
      | None =>
          if check && negb (rc =? 0)%Z
            then raise (CalledProcessError cmd rc out err)
          else ret {| returncode := rc; stdout := out; stderr := err |}
      end
  | Undecodable elapsed rc =>
      set_files t' ;;
      match timeout with
      | Some limit =>
          if (limit <? elapsed)%N then raise (TimeoutExpired cmd limit)
          else raise (OtherException "UnicodeDecodeError")
      | None => raise (OtherException "UnicodeDecodeError")
      end
  end.

(** [subprocess.run(cmd, check=...)]: no stream is captured, so nothing
    is decoded and the two streams of the result are [None], shown here
    as empty texts. *)
Definition subprocess_run_inherited (cmd : list string) (check : bool)
  : M CompletedProcess :=
  emit (Run cmd) ;;
  t <- get_files ;;
  let '(b, t') := launch h cmd t in
  match b with
  | CannotStart what => raise (OtherException what)
  | Hangs => set_files t' ;; fun s => (Hang, s)
  | Exits _ rc _ _ | Undecodable _ rc =>
      set_files t' ;;
      if check && negb (rc =? 0)%Z
        then raise (CalledProcessError cmd rc "" "")
      else ret {| returncode := rc; stdout := ""; stderr := "" |}
  end.

(** [sys.exit(code)]. *)
Definition sys_exit {A} (code : Z) : M A := raise (SystemExit code).

End Library.

(* ================================================================== *)
(** ** The script *)

Section Script.

Variable h : Host.

(** [get_platform_info]: the operating system and the normalised
    architecture. *)
Definition get_platform_info : string * string :=
  let system := lower (platform_system h) in
  let architecture := lower (platform_machine h) in
  let architecture :=
    if architecture =? "x86_64" then "amd64"
    else if (architecture =? "aarch64") || (architecture =? "arm64") then "arm64"
    else if startswith architecture "arm" then "arm"
    else architecture in
  (system, architecture).

(** [clean_build_dirs]. *)
Definition dirs_to_clean : list string := ["build"; "dist"; "__pycache__"].

(** The body of its loop, for one directory name. *)
Definition clean_dir (dir_name : string) : M unit :=
  found <- path_exists dir_name ;;
  if found then
    rmtree h dir_name ;;
    print ("Cleaned " ++ dir_name ++ " directory")
  else ret tt.

Definition clean_build_dirs : M unit :=
  for_each dirs_to_clean clean_dir.

(** [create_spec_file]. *)
Definition spec_content : string :=
  nl ++ unlines [
    "# -*- mode: python ; coding: utf-8 -*-";
    "";
    "import sys";
    "from pathlib import Path";
    "";
    "block_cipher = None";
    "";
    "# Determine the appropriate name for the executable";
    "exe_name = 'base-converter'";
    "if sys.platform.startswith('win'):";
    "    exe_name += '.exe'";
    "";
    "a = Analysis(";
    "    ['src/main.py'],";
    "    pathex=['src'],";
    "    binaries=[],";
    "    datas=[";
    "        ('src/*.py', 'src'),";
    "    ],";
    "    hiddenimports=[";
    "        'tkinter',";
    "        'tkinter.ttk',";
    "        'tkinter.messagebox', ";
    "        'tkinter.filedialog',";
    "        'tkinter.scrolledtext',";
    "        'argparse',";
    "    ],";
    "    hookspath=[],";
    "    hooksconfig={},";
    "    runtime_hooks=[],";
    "    excludes=[";
    "        'matplotlib',";
    "        'numpy',";
    "        'pandas',";
    "        'scipy',";
    "        'IPython',";
    "        'jupyter',";
    "    ],";
    "    win_no_prefer_redirects=False,";
    "    win_private_assemblies=False,";
    "    cipher=block_cipher,";
    "    noarchive=False,";
    ")";
    "";
    "pyz = PYZ(a.pure, a.zipped_data, cipher=block_cipher)";
    "";
    "exe = EXE(";
    "    pyz,";
    "    a.scripts,";
    "    a.binaries,";
    "    a.zipfiles,";
    "    a.datas,";
    "    [],";
    "    name=exe_name,";
    "    debug=False,";
    "    bootloader_ignore_signals=False,";
    "    strip=False,";
    "    upx=True,";
    "    upx_exclude=[],";
    "    runtime_tmpdir=None,";
    "    console=True,";
    "    disable_windowed_traceback=False,";
    "    argv_emulation=False,";
    "    target_arch=None,";
    "    codesign_identity=None,";
    "    entitlements_file=None,";
    "    icon=None,  # Add icon path here if you have one";
    ")"
  ].

Definition create_spec_file : M unit :=
  write_text h "base-converter.spec" (strip spec_content) ;;
  print "Created PyInstaller spec file".

(** [build_executable]. *)
Definition build_executable : M bool :=
  let '(system, arch) := get_platform_info in
  print ("Building for " ++ system ++ "-" ++ arch ++ "...") ;;
  create_spec_file ;;
  let cmd := [sys_executable h; "-m"; "PyInstaller"; "--clean";
              "base-converter.spec"] in
  try_except
    (result <- subprocess_run h cmd true None ;;
     print "Build successful!" ;;
     print (stdout result) ;;
     let exe_name := "base-converter" in
     let exe_name :=
       if system =? "windows" then exe_name ++ ".exe" else exe_name in
     let dist_path := "dist" in
     let original_exe := Path_join dist_path exe_name in
     let platform_exe :=
       Path_join dist_path
         ("base-converter-" ++ system ++ "-" ++ arch
            ++ (if system =? "windows" then ".exe" else "")) in
     original_there <- path_exists original_exe ;;
     (if original_there then
        target_there <- path_exists platform_exe ;;
        (if target_there then unlink platform_exe else ret tt) ;;
        rename h original_exe platform_exe ;;
        print ("Created: " ++ fspath h platform_exe)
      else ret tt) ;;
     ret true)
    (fun e =>
       match e with
       | CalledProcessError _ _ _ err =>
           Some (print ("Build failed: " ++ exn_text h e) ;;
                 print ("Error output: " ++ err) ;;
                 ret false)
       | _ => None
       end).

(** [create_windows_installer]. *)
Definition windows_installer_content : string :=
  nl ++ unlines [
    "@echo off";
    "echo Installing Base Converter...";
    "";
    "REM Create installation directory";
    "set INSTALL_DIR=%PROGRAMFILES%\BaseConverter";
    "if not exist " ++ dq ++ "%INSTALL_DIR%" ++ dq ++ " mkdir " ++ dq ++ "%INSTALL_DIR%" ++ dq;
    "";
    "REM Copy executable";
    "copy base-converter-windows-*.exe " ++ dq ++ "%INSTALL_DIR%\base-converter.exe" ++ dq;
    "";
    "REM Add to PATH (requires admin privileges)";
    "setx PATH " ++ dq ++ "%PATH%;%INSTALL_DIR%" ++ dq ++ " /M";
    "";
    "echo Base Converter installed successfully!";
    "echo You can now use 'base-converter' command from any command prompt.";
    "pause"
  ].

Definition create_windows_installer : M unit :=
  write_text h "install-windows.bat" (strip windows_installer_content) ;;
  print "Created Windows installer script".

(** [create_macos_installer]. *)
Definition macos_installer_content : string :=
  unlines [
    "#!/bin/bash";
    "echo " ++ dq ++ "Installing Base Converter..." ++ dq;
    "";
    "# Create installation directory";
    "INSTALL_DIR=" ++ dq ++ "/usr/local/bin" ++ dq;
    "sudo mkdir -p " ++ dq ++ "$INSTALL_DIR" ++ dq;
    "";
    "# Copy executable";
    "sudo cp base-converter-darwin-* " ++ dq ++ "$INSTALL_DIR/base-converter" ++ dq;
    "sudo chmod +x " ++ dq ++ "$INSTALL_DIR/base-converter" ++ dq;
    "";
    "echo " ++ dq ++ "Base Converter installed successfully!" ++ dq;
    "echo " ++ dq ++ "You can now use 'base-converter' command from any terminal." ++ dq
  ].

Definition create_macos_installer : M unit :=
  write_text h "install-macos.sh" (strip macos_installer_content) ;;
  chmod "install-macos.sh" mode_0o755 ;;
  print "Created macOS installer script".

(** [create_linux_installer]. *)
Definition linux_installer_content : string :=
  unlines [
    "#!/bin/bash";
    "echo " ++ dq ++ "Installing Base Converter..." ++ dq;
    "";
    "# Create installation directory";
    "INSTALL_DIR=" ++ dq ++ "/usr/local/bin" ++ dq;
    "sudo mkdir -p " ++ dq ++ "$INSTALL_DIR" ++ dq;
    "";
    "# Copy executable";
    "sudo cp base-converter-linux-* " ++ dq ++ "$INSTALL_DIR/base-converter" ++ dq;
    "sudo chmod +x " ++ dq ++ "$INSTALL_DIR/base-converter" ++ dq;
    "";
    "# Create desktop entry (optional)";
    "DESKTOP_FILE=" ++ dq ++ "$HOME/.local/share/applications/base-converter.desktop" ++ dq;
    "mkdir -p " ++ dq ++ "$(dirname " ++ dq ++ "$DESKTOP_FILE" ++ dq ++ ")" ++ dq;
    "cat > " ++ dq ++ "$DESKTOP_FILE" ++ dq ++ " << EOF";
    "[Desktop Entry]";
    "Name=Base Converter";
    "Comment=A comprehensive base conversion utility";
    "Exec=base-converter --gui";
    "Icon=accessories-calculator";
    "Terminal=false";
    "Type=Application";
    "Categories=Utility;Calculator;";
    "EOF";
    "";
    "echo " ++ dq ++ "Base Converter installed successfully!" ++ dq;
    "echo " ++ dq ++ "You can now use 'base-converter' command from any terminal." ++ dq;
    "echo " ++ dq ++ "A desktop entry has been created for GUI access." ++ dq
  ].

Definition create_linux_installer : M unit :=
  write_text h "install-linux.sh" (strip linux_installer_content) ;;
  chmod "install-linux.sh" mode_0o755 ;;
  print "Created Linux installer script".

(** [create_installer_script]. *)
Definition create_installer_script : M unit :=
  let '(system, arch) := get_platform_info in
  if system =? "windows" then create_windows_installer
  else if system =? "darwin" then create_macos_installer
  else create_linux_installer.

(** [create_package_info]. *)
Definition info_content : string :=
  let '(system, arch) := get_platform_info in
  "Base Converter v1.0" ++ nl ++
  "Platform: " ++ system ++ "-" ++ arch ++ nl ++
  "Build Date: " ++ clock h ++ nl ++
  unlines [
    "";
    "INSTALLATION:";
    "Run the appropriate installer script for your platform:";
    "- Windows: install-windows.bat (run as administrator)";
    "- macOS: ./install-macos.sh";
    "- Linux: ./install-linux.sh";
    "";
    "MANUAL INSTALLATION:";
    "Copy the executable to a directory in your PATH.";
    "";
    "USAGE:";
    "base-converter --gui          # Launch graphical interface";
    "base-converter 1010 -f 2 -t 10  # Convert binary to decimal";
    "base-converter --help         # Show help";
    "";
    "For more information, visit:";
    "https://github.com/6639835/base-converter"
  ].

Definition create_package_info : M unit :=
  write_text h "PACKAGE_INFO.txt" (strip info_content) ;;
  print "Created package information file".

(** [test_executable]. *)
Definition test_executable : M bool :=
  let '(system, arch) := get_platform_info in
  let exe_name := "base-converter-" ++ system ++ "-" ++ arch in
  let exe_name :=
    if system =? "windows" then exe_name ++ ".exe" else exe_name in
  let exe_path := Path_join "dist" exe_name in
  found <- path_exists exe_path ;;
  if negb found then
    print ("Executable not found: " ++ fspath h exe_path) ;;
    ret false
  else
    try_except
      (result <- subprocess_run h [fspath h exe_path; "--list-bases"]
                   false (Some 10%N) ;;
       if (returncode result =? 0)%Z && contains "Binary" (stdout result)
       then
         print "Executable test passed!" ;;
         ret true
       else
         print ("Executable test failed: " ++ stderr result) ;;
         ret false)
      (fun e =>
         match e with
         | TimeoutExpired _ _ =>
             Some (print "Executable test timed out" ;; ret false)
         | SystemExit _ => None
         | _ =>
             Some (print ("Error testing executable: " ++ exn_text h e) ;;
                   ret false)
         end).

(** [main]. *)
Definition main : M unit :=
  print "Base Converter Build Script" ;;
  print (repeat_str "=" 40) ;;
  match pyinstaller_version h with
  | Some version => print ("PyInstaller version: " ++ version)
  | None =>
      print "PyInstaller not found. Installing..." ;;
      _ <- subprocess_run_inherited h
             [sys_executable h; "-m"; "pip"; "install"; "pyinstaller"]
             true ;;
      ret tt
  end ;;
  clean_build_dirs ;;
  built <- build_executable ;;
  (if negb built then
     print "Build failed!" ;;
     sys_exit 1
   else ret tt) ;;
  tested <- test_executable ;;
  (if negb tested then
     print "Warning: Executable test failed, but build completed"
   else ret tt) ;;
  create_installer_script ;;
  create_package_info ;;
  print (nl ++ "Build completed successfully!") ;;
  print (nl ++ "Files created:") ;;
  print ("- dist/base-converter-" ++ fst get_platform_info ++ "-"
           ++ snd get_platform_info) ;;
  print "- Installer script" ;;
  print "- PACKAGE_INFO.txt" ;;
  print (nl ++ "To create a release package:") ;;
  print "1. Test the executable thoroughly" ;;
  print "2. Create a zip/tar.gz archive with the executable and installer" ;;
  print "3. Upload to GitHub Releases".

(** The statements of [main] before the build step: the banner, the
    check for the packaging tool and the cleaning. *)
Definition main_until_build : M unit :=
  print "Base Converter Build Script" ;;
  print (repeat_str "=" 40) ;;
  match pyinstaller_version h with
  | Some version => print ("PyInstaller version: " ++ version)
  | None =>
      print "PyInstaller not found. Installing..." ;;
      _ <- subprocess_run_inherited h
             [sys_executable h; "-m"; "pip"; "install"; "pyinstaller"]
             true ;;
      ret tt
  end ;;
  clean_build_dirs.

(** How the process ends. *)
Inductive termination : Type :=
| Exited (code : Z)
| Never.

(** The exit code of the interpreter when the script has ended with
    [code]: shutting down flushes the standard output, and a failure of
    that flush makes the exit code 120 whatever [code] was. *)
Definition exit_status (code : Z) : Z :=
  if stdout_lost h then 120%Z else code.

(** [if __name__ == '__main__': main()]: the script ends with code 0
    when [main] returns, with the code of [sys.exit], and with code 1
    on an exception nobody caught. *)
Definition script (t : tree) : termination * state :=
  match main (mkState t []) with
  | (Ret _, s) => (Exited (exit_status 0), s)
  | (Raise (SystemExit code), s) => (Exited (exit_status code), s)
  | (Raise _, s) => (Exited (exit_status 1), s)
  | (Hang, s) => (Never, s)
  end.

End Script.

(* ================================================================== *)
(** ** Vocabulary of the statements *)

(** The command line of the packaging tool. *)
Definition packager_cmd (h : Host) : list string :=
  [sys_executable h; "-m"; "PyInstaller"; "--clean"; "base-converter.spec"].

(** What the script has printed and written when the packaging tool has
    exited 0 with [out] on its standard output. *)
Definition build_log_ok (h : Host) (out : string) : list event :=
  [Print ("Building for " ++ fst (get_platform_info h) ++ "-"
            ++ snd (get_platform_info h) ++ "...");
   Wrote "base-converter.spec" (strip spec_content);
   Print "Created PyInstaller spec file";
   Run (packager_cmd h);
   Print "Build successful!";
   Print out].

(** The verdict of the smoke test on a file tree, read off the
    behaviour of the artifact at [exe]. *)
Definition smoke_verdict (h : Host) (exe : string) (t : tree) : bool :=
  match t exe with
  | None => false
  | Some _ =>
      match fst (launch h [fspath h exe; "--list-bases"] t) with
      | Exits elapsed rc out _ =>
          (elapsed <=? 10)%N && (rc =? 0)%Z && contains "Binary" out
      | Hangs => false
      | CannotStart _ => false
      | Undecodable _ _ => false
      end
  end.

(** The installer the script writes on a system, the text it hands to
    [write] and the line it prints. *)
Definition installer_name (system : string) : string :=
  if system =? "windows" then "install-windows.bat"
  else if system =? "darwin" then "install-macos.sh"
  else "install-linux.sh".

Definition installer_text (system : string) : string :=
  if system =? "windows" then strip windows_installer_content
  else if system =? "darwin" then strip macos_installer_content
  else strip linux_installer_content.

Definition installer_message (system : string) : string :=
  if system =? "windows" then "Created Windows installer script"
  else if system =? "darwin" then "Created macOS installer script"
  else "Created Linux installer script".


(** The bytes of the regular file at [p], if there is one. *)
Definition file_bytes (t : tree) (p : string) : option string :=
  match t p with
  | Some (File bytes _) => Some bytes
  | _ => None
  end.


(** The state in which [main] goes on after a smoke test that left
    [s]: a failed test has added one line, the warning. *)
Definition warned (tested : bool) (s : state) : state :=
  if tested then s
  else mkState (files s)
         (log s ++ [Print "Warning: Executable test failed, but build completed"]).

(** The last lines [main] prints. *)
Definition closing_lines (h : Host) : list event :=
  [Print (nl ++ "Build completed successfully!");
   Print (nl ++ "Files created:");
   Print ("- dist/base-converter-" ++ fst (get_platform_info h) ++ "-"
            ++ snd (get_platform_info h));
   Print "- Installer script";
   Print "- PACKAGE_INFO.txt";
   Print (nl ++ "To create a release package:");
   Print "1. Test the executable thoroughly";
   Print "2. Create a zip/tar.gz archive with the executable and installer";
   Print "3. Upload to GitHub Releases"].

(* ================================================================== *)
(** ** Vocabulary of the further statements *)

(** The two paths of the build step: where the packaging tool leaves
    the executable, and where the script moves it. *)
Definition original_path (h : Host) : string :=
  "dist/base-converter"
    ++ (if fst (get_platform_info h) =? "windows" then ".exe" else "").

Definition artifact_path (h : Host) : string :=
  "dist/base-converter-" ++ fst (get_platform_info h) ++ "-"
    ++ snd (get_platform_info h)
    ++ (if fst (get_platform_info h) =? "windows" then ".exe" else "").

(** The file name of the artifact, in [dist]. *)
Definition artifact_name (h : Host) : string :=
  "base-converter-" ++ fst (get_platform_info h) ++ "-"
    ++ snd (get_platform_info h)
    ++ (if fst (get_platform_info h) =? "windows" then ".exe" else "").

(** The command line that installs the packaging tool. *)
Definition pip_cmd (h : Host) : list string :=
  [sys_executable h; "-m"; "pip"; "install"; "pyinstaller"].

(** The package information without its last line feed: what is left
    of [info_content] once stripped. *)
Definition info_text (h : Host) : string :=
  "Base Converter v1.0" ++ nl ++
  "Platform: " ++ fst (get_platform_info h) ++ "-"
    ++ snd (get_platform_info h) ++ nl ++
  "Build Date: " ++ clock h ++ nl ++
  unlines [
    "";
    "INSTALLATION:";
    "Run the appropriate installer script for your platform:";
    "- Windows: install-windows.bat (run as administrator)";
    "- macOS: ./install-macos.sh";
    "- Linux: ./install-linux.sh";
    "";
    "MANUAL INSTALLATION:";
    "Copy the executable to a directory in your PATH.";
    "";
    "USAGE:";
    "base-converter --gui          # Launch graphical interface";
    "base-converter 1010 -f 2 -t 10  # Convert binary to decimal";
    "base-converter --help         # Show help";
    "";
    "For more information, visit:"
  ] ++ "https://github.com/6639835/base-converter".

(** [p] is one of the names [clean_build_dirs] removes, or lies below
    one of them. *)
Definition cleaned_place (p : string) : bool :=
  existsb (fun d => String.eqb p d || under d p) dirs_to_clean.

(** An exception that ends the process with code 1: any exception but
    [SystemExit], and [SystemExit(1)]. *)
Definition ends_with_1 (e : exn) : Prop :=
  match e with
  | SystemExit code => code = 1%Z
  | _ => True
  end.

(** The actions a run of the script may perform on a host: it prints,
    it launches the installer of the packaging tool, the packaging
    tool and the built artifact, it removes the three build
    directories, it writes the configuration, one installer and the
    package information, it makes the installer executable, and it
    unlinks and renames at the path of the artifact. *)
Definition allowed (h : Host) (e : event) : Prop :=
  match e with
  | Print _ => True
  | Run cmd =>
      cmd = pip_cmd h \/ cmd = packager_cmd h
      \/ cmd = [fspath h (artifact_path h); "--list-bases"]
  | Wrote p _ =>
      p = "base-converter.spec"
      \/ p = installer_name (fst (get_platform_info h))
      \/ p = "PACKAGE_INFO.txt"
  | Chmod p mode =>
      p = installer_name (fst (get_platform_info h)) /\ mode = mode_0o755
  | Unlinked p => p = artifact_path h
  | Renamed src dst => src = original_path h /\ dst = artifact_path h
  | Rmtree d => In d dirs_to_clean
  end.

(** A computation that, from every state, adds to the log only events
    that satisfy [ok_event] and raises only exceptions that satisfy
    [ok_exn]. *)
Definition within (ok_event : event -> Prop) (ok_exn : exn -> Prop)
    {A : Type} (m : M A) : Prop :=
  forall (s s' : state) (r : result A),
    m s = (r, s') ->
    (exists evs, log s' = (log s ++ evs)%list /\ Forall ok_event evs) /\
    (forall e, r = Raise e -> ok_exn e).

(* ================================================================== *)
(** ** Sample hosts and trees, for the examples *)

Module Sample.

Definition empty_tree : tree := fun _ => None.

(** Is the command line [python -m <module> ...]? *)
Definition runs_module (cmd : list string) (module : string) : bool :=
  match cmd with
  | _ :: "-m" :: m :: _ => String.eqb m module
  | _ => false
  end.

Definition no_fault : string -> tree -> option (string * (string -> bool)) :=
  fun _ _ => None.

(** A host with the given platform strings, path separator, line
    terminator, launched programs and [rmtree] faults. *)
Definition host (system machine sep linesep : string)
    (programs : list string -> tree -> behaviour * tree)
    (fault : string -> tree -> option (string * (string -> bool))) : Host :=
  {| platform_system := system;
     platform_machine := machine;
     sys_executable := "python3";
     os_sep := sep;
     os_linesep := linesep;
     umask := 18;
     pyinstaller_version := Some "6.3.0";
     clock := "2024-05-01 12:00:00";
     exn_text := fun e =>
       match e with
       | CalledProcessError _ _ _ _ => "Command returned non-zero exit status"
       | TimeoutExpired _ _ => "Command timed out"
       | OtherException what => what
       | SystemExit _ => "exit"
       end;
     launch := programs;
     rmtree_fault := fault;
     open_fault := fun _ _ => None;
     stdout_lost := false |}.

(** The packaging tool leaves the executable [artifact] in [dist] and
    exits 0; the built program lists its bases at once. *)
Definition good_programs (artifact : string) : list string -> tree -> behaviour * tree :=
  fun cmd t =>
    if runs_module cmd "PyInstaller"
    then (Exits 30 0 "built" "",
          tree_set artifact (File "ELF" 493) (tree_set "dist" Dir t))
    else (Exits 1 0 "2: Binary, 8: Octal, 10: Decimal, 16: Hex" "", t).


(** The packaging tool exits with code 2. *)
Definition failing_programs : list string -> tree -> behaviour * tree :=
  fun cmd t => (Exits 3 2 "" "ImportError: no module named tkinter", t).


Definition fresh : state := mkState empty_tree [].

Definition linux_amd64 : Host :=
  host "Linux" "x86_64" "/" nl (good_programs "dist/base-converter") no_fault.

Definition linux_aarch64 : Host :=
  host "Linux" "aarch64" "/" nl (good_programs "dist/base-converter") no_fault.

Definition linux_armv7l : Host :=
  host "Linux" "armv7l" "/" nl (good_programs "dist/base-converter") no_fault.

Definition linux_riscv64 : Host :=
  host "Linux" "riscv64" "/" nl (good_programs "dist/base-converter") no_fault.

Definition macos_arm64 : Host :=
  host "Darwin" "arm64" "/" nl (good_programs "dist/base-converter") no_fault.

Definition windows_amd64 : Host :=
  host "Windows" "AMD64" "\" (String "013"%char nl)
       (good_programs "dist/base-converter.exe") no_fault.

Definition freebsd_amd64 : Host :=
  host "FreeBSD" "amd64" "/" nl (good_programs "dist/base-converter") no_fault.

(** The packaging tool never ends. *)
Definition hanging_programs : list string -> tree -> behaviour * tree :=
  fun cmd t => (Hangs, t).

(** The packaging tool works; the built program answers after 11 units
    of time, or never. *)
Definition slow_artifact_programs (answer : behaviour)
  : list string -> tree -> behaviour * tree :=
  fun cmd t =>
    if runs_module cmd "PyInstaller"
    then (Exits 30 0 "built" "",
          tree_set "dist/base-converter" (File "ELF" 493) (tree_set "dist" Dir t))
    else (answer, t).

Definition linux_hanging_packager : Host :=
  host "Linux" "x86_64" "/" nl hanging_programs no_fault.

Definition linux_slow_artifact : Host :=
  host "Linux" "x86_64" "/" nl
       (slow_artifact_programs (Exits 11 0 "2: Binary" "")) no_fault.

Definition linux_hanging_artifact : Host :=
  host "Linux" "x86_64" "/" nl (slow_artifact_programs Hangs) no_fault.


Definition linux_failing_packager : Host :=
  host "Linux" "x86_64" "/" nl failing_programs no_fault.


(** On this host [rmtree] of [dist] is denied after one entry has been
    removed. *)
Definition linux_dist_denied : Host :=
  host "Linux" "x86_64" "/" nl (good_programs "dist/base-converter")
       (fun d _ =>
          if String.eqb d "dist"
          then Some ("PermissionError", String.eqb "dist/a")
          else None).

(** A tree left by an earlier build on windows. *)
Definition stale_windows : state :=
  mkState
    (tree_set "dist/base-converter-windows-amd64.exe" (File "old" 493)
       (tree_set "dist" Dir empty_tree))
    [].

(** A tree with the three directories of an earlier build. *)
Definition used_tree : tree :=
  tree_set "build" Dir
    (tree_set "build/base-converter/x.toc" (File "toc" 420)
       (tree_set "dist" Dir
          (tree_set "dist/a" (File "a" 493)
             (tree_set "dist/b" (File "b" 493)
                (tree_set "src" Dir
                   (tree_set "src/main.py" (File "print()" 420)
                      empty_tree)))))).


(** The state of [main] when it starts cleaning on the sample hosts. *)
Definition at_cleaning (t : tree) : state :=
  mkState t [Print "Base Converter Build Script";
             Print (repeat_str "=" 40);
             Print "PyInstaller version: 6.3.0"].

(** The interpreter cannot be started at all. *)
Definition no_interpreter_programs : list string -> tree -> behaviour * tree :=
  fun cmd t => (CannotStart "FileNotFoundError: python3", t).

Definition linux_no_interpreter : Host :=
  host "Linux" "x86_64" "/" nl no_interpreter_programs no_fault.

(** The packaging tool leaves its executable, and a directory where the
    artifact should go. *)
Definition blocking_programs : list string -> tree -> behaviour * tree :=
  fun cmd t =>
    (Exits 30 0 "built" "",
     tree_set "dist/base-converter" (File "ELF" 493)
       (tree_set "dist/base-converter-linux-amd64" Dir
          (tree_set "dist" Dir t))).

Definition linux_blocked_target : Host :=
  host "Linux" "x86_64" "/" nl blocking_programs no_fault.

(** A host without the packaging tool, on which installing it fails. *)
Definition linux_without_tool : Host :=
  {| platform_system := "Linux";
     platform_machine := "x86_64";
     sys_executable := "python3";
     os_sep := "/";
     os_linesep := nl;
     umask := 18;
     pyinstaller_version := None;
     clock := "2024-05-01 12:00:00";
     exn_text := fun _ => "error";
     launch := fun cmd t => (Exits 5 1 "" "No matching distribution", t);
     rmtree_fault := no_fault;
     open_fault := fun _ _ => None;
     stdout_lost := false |}.

(** The packaging tool ends with exit code [code], having printed bytes
    that are no text; it leaves its executable when [leaves] says so. *)
Definition garbled_programs (code : Z) (leaves : bool)
  : list string -> tree -> behaviour * tree :=
  fun cmd t =>
    (Undecodable 30 code,
     if leaves
     then tree_set "dist/base-converter" (File "ELF" 493) (tree_set "dist" Dir t)
     else t).

Definition linux_garbled_build : Host :=
  host "Linux" "x86_64" "/" nl (garbled_programs 0 true) no_fault.





(** The host [h] refusing every [open] for writing, and the host [h]
    with a standard output that cannot be flushed. *)
Definition read_only (h : Host) : Host :=
  {| platform_system := platform_system h;
     platform_machine := platform_machine h;
     sys_executable := sys_executable h;
     os_sep := os_sep h;
     os_linesep := os_linesep h;
     umask := umask h;
     pyinstaller_version := pyinstaller_version h;
     clock := clock h;
     exn_text := exn_text h;
     launch := launch h;
     rmtree_fault := rmtree_fault h;
     open_fault := fun _ _ => Some "PermissionError";
     stdout_lost := stdout_lost h |}.

Definition closed_pipe (h : Host) : Host :=
  {| platform_system := platform_system h;
     platform_machine := platform_machine h;
     sys_executable := sys_executable h;
     os_sep := os_sep h;
     os_linesep := os_linesep h;
     umask := umask h;
     pyinstaller_version := pyinstaller_version h;
     clock := clock h;
     exn_text := exn_text h;
     launch := launch h;
     rmtree_fault := rmtree_fault h;
     open_fault := open_fault h;
     stdout_lost := true |}.

(** The host [h] with another machine string. *)
Definition with_machine (h : Host) (machine : string) : Host :=
  {| platform_system := platform_system h;
     platform_machine := machine;
     sys_executable := sys_executable h;
     os_sep := os_sep h;
     os_linesep := os_linesep h;
     umask := umask h;
     pyinstaller_version := pyinstaller_version h;
     clock := clock h;
     exn_text := exn_text h;
     launch := launch h;
     rmtree_fault := rmtree_fault h;
     open_fault := open_fault h;
     stdout_lost := stdout_lost h |}.

End Sample.

(* ================================================================== *)
(** ** Facts about text *)

Lemma prefix_app (p rest : string) : String.prefix p (p ++ rest) = true.
Proof.
  induction p as [|c p IH]; simpl.
  - destruct rest; reflexivity.
  - destruct (ascii_dec c c) as [_|ne]; [exact IH | now elim ne].
Qed.

Lemma prefix_split (p s : string) :
  String.prefix p s = true -> exists rest, s = p ++ rest.
Proof.
  revert s; induction p as [|c p IH]; intros s Hp.
  - now exists s.
  - destruct s as [|d s]; simpl in Hp; [discriminate|].
    destruct (ascii_dec c d) as [->|]; [|discriminate].
    destruct (IH _ Hp) as [rest ->]. now exists rest.
Qed.

(** [startswith] is "begins with". *)
Lemma startswith_spec (s pre : string) :
  startswith s pre = true <-> exists rest, s = pre ++ rest.
Proof.
  unfold startswith; split.
  - apply prefix_split.
  - intros [rest ->]; apply prefix_app.
Qed.

Lemma append_assoc (a b c : string) : (a ++ b) ++ c = a ++ (b ++ c).
Proof. induction a as [|x a IH]; simpl; [reflexivity | now rewrite IH]. Qed.

Lemma append_nil_r (a : string) : a ++ "" = a.
Proof. induction a as [|x a IH]; simpl; [reflexivity | now rewrite IH]. Qed.









Example lower_mixed : lower "AArch64" = "aarch64".
Proof. reflexivity. Qed.

Example strip_both_ends :
  strip (nl ++ "  a b " ++ nl ++ "c" ++ nl ++ " ") = "a b " ++ nl ++ "c".
Proof. reflexivity. Qed.

Example contains_inside : contains "Binary" "2: Binary, 8: Octal" = true.
Proof. reflexivity. Qed.

Example contains_case_sensitive : contains "Binary" "binary" = false.
Proof. reflexivity. Qed.

(* ================================================================== *)
(** ** Running the model, one statement at a time *)

Arguments strip _ : simpl never.
Arguments text_mode _ _ : simpl never.

Section Running.

Context {A B : Type}.

Lemma bind_Ret (m : M A) (k : A -> M B) (s s' : state) (a : A) :
  m s = (Ret a, s') -> bind m k s = k a s'.
Proof. unfold bind; now intros ->. Qed.

Lemma bind_Raise (m : M A) (k : A -> M B) (s s' : state) (e : exn) :
  m s = (Raise e, s') -> bind m k s = (Raise e, s').
Proof. unfold bind; now intros ->. Qed.

Lemma bind_Hang (m : M A) (k : A -> M B) (s s' : state) :
  m s = (Hang, s') -> bind m k s = (Hang, s').
Proof. unfold bind; now intros ->. Qed.

Lemma try_except_Ret (body : M A) handler (s s' : state) (a : A) :
  body s = (Ret a, s') -> try_except body handler s = (Ret a, s').
Proof. unfold try_except; now intros ->. Qed.

Lemma try_except_Raise (body : M A) handler (s s' : state) (e : exn) :
  body s = (Raise e, s') ->
  try_except body handler s =
    match handler e with
    | Some recover => recover s'
    | None => (Raise e, s')
    end.
Proof. unfold try_except; now intros ->. Qed.

End Running.

Lemma bind_bind {A B C} (m : M A) (f : A -> M B) (g : B -> M C) (s : state) :
  bind (bind m f) g s = bind m (fun x => bind (f x) g) s.
Proof. unfold bind. destruct (m s) as [[a|e|] s']; reflexivity. Qed.

Lemma print_run (line : string) (s : state) :
  print line s = (Ret tt, mkState (files s) (log s ++ [Print line])).
Proof. reflexivity. Qed.

Lemma path_exists_run (p : string) (s : state) :
  path_exists p s =
    (Ret (match files s p with Some _ => true | None => false end), s).
Proof. reflexivity. Qed.

Lemma write_text_run (h : Host) (p text : string) (s : state) :
  open_error h (files s) p = None ->
  write_text h p text s =
    (Ret tt,
     mkState
       (tree_set p
          (File (text_mode h text) (mode_after_write h (files s) p))
          (files s))
       (log s ++ [Wrote p text])).
Proof.
  intros H. unfold write_text, bind, get_files. now rewrite H.
Qed.

Lemma write_text_refused (h : Host) (p text what : string) (s : state) :
  open_error h (files s) p = Some what ->
  write_text h p text s = (Raise (OtherException what), s).
Proof.
  intros H. unfold write_text, bind, get_files. now rewrite H.
Qed.

(** A write returns or raises an error of [open], and nothing else. *)
Lemma write_text_cases (h : Host) (p text : string) (s : state) :
  (open_error h (files s) p = None /\
   write_text h p text s =
     (Ret tt,
      mkState
        (tree_set p
           (File (text_mode h text) (mode_after_write h (files s) p))
           (files s))
        (log s ++ [Wrote p text]))) \/
  (exists what,
     open_error h (files s) p = Some what /\
     write_text h p text s = (Raise (OtherException what), s)).
Proof.
  destruct (open_error h (files s) p) as [what|] eqn:H.
  - right. exists what. split; [reflexivity|]. now apply write_text_refused.
  - left. split; [reflexivity|]. now apply write_text_run.
Qed.

(** What is at a name that has just been written can be written again
    unless the host refuses. *)
Lemma open_error_after_write (h : Host) (t : tree) (p c : string) (m : N) :
  open_error h (tree_set p (File c m) t) p
  = open_fault h p (tree_set p (File c m) t).
Proof.
  unfold open_error, tree_set. now rewrite String.eqb_refl.
Qed.

Lemma chmod_run (p : string) (mode : N) (t : tree) (l : list event) c m :
  t p = Some (File c m) ->
  chmod p mode (mkState t l) =
    (Ret tt, mkState (tree_set p (File c mode) t) (l ++ [Chmod p mode])).
Proof.
  intros H. unfold chmod, bind, get_files, set_files, emit.
  cbn [files log]. now rewrite H.
Qed.

Lemma unlink_run (p : string) (t : tree) (l : list event) c m :
  t p = Some (File c m) ->
  unlink p (mkState t l) =
    (Ret tt, mkState (tree_remove p t) (l ++ [Unlinked p])).
Proof.
  intros H. unfold unlink, bind, get_files, set_files, emit.
  cbn [files log]. now rewrite H.
Qed.

Lemma rename_run (h : Host) (src dst : string) (t : tree) (l : list event) e :
  t src = Some e ->
  t dst = None ->
  rename h src dst (mkState t l) =
    (Ret tt, mkState (tree_move src dst t) (l ++ [Renamed src dst])).
Proof.
  intros H Hfree. unfold rename, bind, get_files, set_files, emit.
  cbn [files log]. now rewrite H, Hfree.
Qed.

Lemma tree_remove_same (p : string) (t : tree) : tree_remove p t p = None.
Proof. unfold tree_remove. now rewrite String.eqb_refl. Qed.

(** A checked run without a timeout of a program that exits 0. *)
Lemma subprocess_run_checked_ok (h : Host) cmd t0 l0 elapsed out err t :
  launch h cmd t0 = (Exits elapsed 0 out err, t) ->
  subprocess_run h cmd true None (mkState t0 l0) =
    (Ret {| returncode := 0; stdout := out; stderr := err |},
     mkState t (l0 ++ [Run cmd])).
Proof.
  intros H. unfold subprocess_run, bind, emit, get_files, set_files.
  cbn [files log]. now rewrite H.
Qed.


(** An unchecked run under a time limit. *)
Lemma subprocess_run_timed (h : Host) cmd limit t0 l0 b t :
  launch h cmd t0 = (b, t) ->
  subprocess_run h cmd false (Some limit) (mkState t0 l0) =
    match b with
    | Exits elapsed rc out err =>
        if (limit <? elapsed)%N
        then (Raise (TimeoutExpired cmd limit), mkState t (l0 ++ [Run cmd]))
        else (Ret {| returncode := rc; stdout := out; stderr := err |},
              mkState t (l0 ++ [Run cmd]))
    | Hangs => (Raise (TimeoutExpired cmd limit), mkState t (l0 ++ [Run cmd]))
    | CannotStart what =>
        (Raise (OtherException what), mkState t0 (l0 ++ [Run cmd]))
    | Undecodable elapsed _ =>
        if (limit <? elapsed)%N
        then (Raise (TimeoutExpired cmd limit), mkState t (l0 ++ [Run cmd]))
        else (Raise (OtherException "UnicodeDecodeError"),
              mkState t (l0 ++ [Run cmd]))
    end.
Proof.
  intros H. unfold subprocess_run, bind, emit, get_files, set_files.
  cbn [files log]. rewrite H. cbn [files log andb].
  destruct b as [elapsed rc out err | | what | elapsed rc]; try reflexivity.
  - destruct (limit <? elapsed)%N; reflexivity.
  - destruct (limit <? elapsed)%N; reflexivity.
Qed.

Lemma create_spec_file_run (h : Host) (s : state) :
  open_error h (files s) "base-converter.spec" = None ->
  create_spec_file h s =
    (Ret tt,
     mkState
       (tree_set "base-converter.spec"
          (File (text_mode h (strip spec_content))
             (mode_after_write h (files s) "base-converter.spec"))
          (files s))
       (log s ++ [Wrote "base-converter.spec" (strip spec_content);
                  Print "Created PyInstaller spec file"])).
Proof.
  intros H. unfold create_spec_file.
  rewrite (bind_Ret _ _ _ _ _ (write_text_run _ _ _ _ H)), print_run.
  cbn [files log]. now rewrite <- app_assoc.
Qed.


(** A checked run without a timeout of a program whose output cannot
    be decoded. *)
Lemma subprocess_run_undecodable (h : Host) cmd check t0 l0 elapsed rc t :
  launch h cmd t0 = (Undecodable elapsed rc, t) ->
  subprocess_run h cmd check None (mkState t0 l0) =
    (Raise (OtherException "UnicodeDecodeError"), mkState t (l0 ++ [Run cmd])).
Proof.
  intros H. unfold subprocess_run, bind, emit, get_files, set_files.
  cbn [files log]. now rewrite H.
Qed.

(** A nonzero code of the script is a nonzero exit code of the
    interpreter. *)
Lemma exit_status_nonzero (h : Host) (code : Z) :
  code <> 0%Z -> exit_status h code <> 0%Z.
Proof. unfold exit_status. destruct (stdout_lost h); [discriminate | auto]. Qed.

Lemma exit_status_0 (h : Host) (code : Z) :
  exit_status h code = 0%Z -> stdout_lost h = false /\ code = 0%Z.
Proof. unfold exit_status. destruct (stdout_lost h); [discriminate | auto]. Qed.

(** One statement of the script executed. *)
Ltac py_step :=
  first
    [ rewrite bind_bind
    | rewrite (bind_Ret _ _ _ _ _ (print_run _ _))
    | rewrite (bind_Ret _ _ _ _ _ (path_exists_run _ _))
    | match goal with
      | H : open_error ?h ?t ?p = None
        |- context [bind (write_text ?h ?p ?text) _ (mkState ?t ?l)] =>
          rewrite (bind_Ret _ _ _ _ _ (write_text_run h p text (mkState t l) H))
      | H : open_error ?h ?t "base-converter.spec" = None
        |- context [bind (create_spec_file ?h) _ (mkState ?t ?l)] =>
          rewrite (bind_Ret _ _ _ _ _ (create_spec_file_run h (mkState t l) H))
      end
    | rewrite print_run ];
  cbn [files log].

Ltac log_assoc := repeat rewrite <- app_assoc; cbn [app].

(** An event is in a log given as a concatenation. *)
Ltac in_log := repeat rewrite in_app_iff; cbn [In]; intuition auto.

(** [main] is its statements before the build step, then the rest. *)
Lemma main_from_build (h : Host) (s0 s1 : state) :
  main_until_build h s0 = (Ret tt, s1) ->
  main h s0 =
    (built <- build_executable h ;;
     (if negb built then
        print "Build failed!" ;;
        sys_exit 1
      else ret tt) ;;
     tested <- test_executable h ;;
     (if negb tested then
        print "Warning: Executable test failed, but build completed"
      else ret tt) ;;
     create_installer_script h ;;
     create_package_info h ;;
     print (nl ++ "Build completed successfully!") ;;
     print (nl ++ "Files created:") ;;
     print ("- dist/base-converter-" ++ fst (get_platform_info h) ++ "-"
              ++ snd (get_platform_info h)) ;;
     print "- Installer script" ;;
     print "- PACKAGE_INFO.txt" ;;
     print (nl ++ "To create a release package:") ;;
     print "1. Test the executable thoroughly" ;;
     print "2. Create a zip/tar.gz archive with the executable and installer" ;;
     print "3. Upload to GitHub Releases") s1.
Proof.
  unfold main, main_until_build. intros H.
  do 2 py_step. rewrite !(bind_Ret _ _ _ _ _ (print_run _ _)) in H.
  cbn [files log] in H.
  rewrite <- bind_bind. now rewrite (bind_Ret _ _ _ _ _ H).
Qed.

(* ================================================================== *)
(** ** Platform detection *)

(** C3.  For every raw machine string, [get_platform_info] lowers it
    and then maps [x86_64] to [amd64], maps [aarch64] and [arm64] to
    [arm64], maps every other string that starts with [arm] to [arm],
    and returns every other string as it is. *)
Theorem get_platform_info_arch (h : Host) :
  let lowered := lower (platform_machine h) in
  let arch := snd (get_platform_info h) in
  (lowered = "x86_64" -> arch = "amd64") /\
  (lowered = "aarch64" \/ lowered = "arm64" -> arch = "arm64") /\
  (lowered <> "x86_64" -> lowered <> "aarch64" -> lowered <> "arm64" ->
     (exists rest, lowered = "arm" ++ rest) -> arch = "arm") /\
  (lowered <> "x86_64" -> lowered <> "aarch64" -> lowered <> "arm64" ->
     ~ (exists rest, lowered = "arm" ++ rest) -> arch = lowered).
Proof.
  intros lowered arch; subst arch; unfold get_platform_info; cbn [snd]; fold lowered.
  repeat split.
  - intros ->. reflexivity.
  - intros [-> | ->]; reflexivity.
  - intros n1 n2 n3 Harm.
    apply String.eqb_neq in n1, n2, n3. rewrite n1, n2, n3. cbn [orb].
    apply startswith_spec in Harm. now rewrite Harm.
  - intros n1 n2 n3 Harm.
    apply String.eqb_neq in n1, n2, n3. rewrite n1, n2, n3. cbn [orb].
    destruct (startswith lowered "arm") eqn:E; [|reflexivity].
    apply startswith_spec in E. contradiction.
Qed.

Lemma get_platform_info_arch_witness :
  snd (get_platform_info Sample.linux_amd64) = "amd64" /\
  snd (get_platform_info Sample.linux_aarch64) = "arm64" /\
  snd (get_platform_info Sample.macos_arm64) = "arm64" /\
  snd (get_platform_info Sample.linux_armv7l) = "arm" /\
  snd (get_platform_info Sample.linux_riscv64) = "riscv64".
Proof.
  split; [|split; [|split; [|split]]].
  - apply (proj1 (get_platform_info_arch Sample.linux_amd64)). reflexivity.
  - apply (proj1 (proj2 (get_platform_info_arch Sample.linux_aarch64))).
    left; reflexivity.
  - apply (proj1 (proj2 (get_platform_info_arch Sample.macos_arm64))).
    right; reflexivity.
  - apply (proj1 (proj2 (proj2 (get_platform_info_arch Sample.linux_armv7l))));
      try discriminate. exists "v7l". reflexivity.
  - apply (proj2 (proj2 (proj2 (get_platform_info_arch Sample.linux_riscv64))));
      try discriminate. intros [rest E]. discriminate E.
Defined.

(* ================================================================== *)
(** ** Cleaning *)

Lemma tree_prune_hit (d p : string) (t : tree) :
  p = d \/ under d p = true -> tree_prune d t p = None.
Proof.
  unfold tree_prune. intros [-> | ->].
  - now rewrite String.eqb_refl.
  - now rewrite orb_true_r.
Qed.

Lemma tree_prune_miss (d p : string) (t : tree) :
  p <> d -> under d p = false -> tree_prune d t p = t p.
Proof.
  unfold tree_prune. intros Hne ->. apply String.eqb_neq in Hne.
  now rewrite Hne.
Qed.

Lemma tree_prune_keeps_None (d p : string) (t : tree) :
  t p = None -> tree_prune d t p = None.
Proof. unfold tree_prune. intros ->. now destruct (_ || _). Qed.

Lemma tree_prune_some_keeps_None (d p : string) (gone : string -> bool) (t : tree) :
  t p = None -> tree_prune_some d gone t p = None.
Proof. unfold tree_prune_some. intros ->. now destruct (_ && _). Qed.

(** Nothing at the name: the loop body does nothing. *)
Lemma clean_dir_absent (h : Host) (d : string) (t : tree) (l : list event) :
  t d = None -> clean_dir h d (mkState t l) = (Ret tt, mkState t l).
Proof. intros H. unfold clean_dir. py_step. now rewrite H. Qed.



(** [rmtree] only ever removes entries, and what it raises is an
    ordinary exception. *)
Lemma rmtree_shrinks (h : Host) (d : string) (s s' : state) (r : result unit) :
  rmtree h d s = (r, s') ->
  (forall p, files s p = None -> files s' p = None) /\
  (r = Ret tt -> files s' d = None) /\
  (forall e, r = Raise e -> exists what, e = OtherException what) /\
  r <> Hang.
Proof.
  unfold rmtree, bind, get_files, set_files, emit, raise. cbn [files log].
  destruct (files s d) as [[c m|]|] eqn:Hd.
  - intros [= <- <-]. repeat split; try discriminate; eauto.
    intros e [= <-]. eauto.
  - destruct (rmtree_fault h d (files s)) as [[what gone]|].
    + intros [= <- <-]. cbn [files]. repeat split; try discriminate.
      * intros p. apply tree_prune_some_keeps_None.
      * intros e [= <-]. eauto.
    + intros [= <- <-]. cbn [files]. repeat split; try discriminate.
      * intros p. apply tree_prune_keeps_None.
      * intros _. apply tree_prune_hit. now left.
  - intros [= <- <-]. repeat split; try discriminate; eauto.
    intros e [= <-]. eauto.
Qed.

Lemma clean_dir_shrinks (h : Host) (d : string) (s s' : state) (r : result unit) :
  clean_dir h d s = (r, s') ->
  (forall p, files s p = None -> files s' p = None) /\
  (r = Ret tt -> files s' d = None) /\
  (forall e, r = Raise e -> exists what, e = OtherException what) /\
  r <> Hang.
Proof.
  unfold clean_dir. py_step. destruct (files s d) as [ent|] eqn:Hd.
  - destruct (rmtree h d s) as [[[]|e|] s1] eqn:Hr;
      destruct (rmtree_shrinks h d s s1 _ Hr) as (Hmono & Hgone & Hexn & Hhang).
    + rewrite (bind_Ret _ _ _ _ _ Hr). rewrite print_run. intros [= <- <-].
      cbn [files]. repeat split; try discriminate; auto.
    + rewrite (bind_Raise _ _ _ _ _ Hr). intros [= <- <-].
      repeat split; try discriminate; auto.
    + now elim Hhang.
  - intros [= <- <-]. repeat split; try discriminate; auto.
Qed.

(** The loop over any list of names only removes entries; when it
    returns, nothing is left at any of the names. *)
Lemma for_each_clean_shrinks (h : Host) (ds : list string) :
  forall (s s' : state) (r : result unit),
    for_each ds (clean_dir h) s = (r, s') ->
    (forall p, files s p = None -> files s' p = None) /\
    (r = Ret tt -> forall d, In d ds -> files s' d = None) /\
    (forall e, r = Raise e -> exists what, e = OtherException what) /\
    r <> Hang.
Proof.
  induction ds as [|d ds IH]; intros s s' r; cbn [for_each].
  - intros [= <- <-]. repeat split; try discriminate; auto.
    intros _ d [].
  - destruct (clean_dir h d s) as [[[]|e|] s1] eqn:Hd;
      destruct (clean_dir_shrinks h d s s1 _ Hd) as (Hmono & Hgone & Hexn & Hhang).
    + rewrite (bind_Ret _ _ _ _ _ Hd). intros Hrest.
      destruct (IH _ _ _ Hrest) as (Hmono' & Hgone' & Hexn' & Hhang').
      repeat split; auto.
      intros -> d' [<- | Hin]; auto.
    + rewrite (bind_Raise _ _ _ _ _ Hd). intros [= <- <-].
      repeat split; try discriminate; auto.
    + now elim Hhang.
Qed.


(** An exception before the build step ends [main] there. *)
Lemma main_stops_before_build (h : Host) (s0 s : state) (e : exn) :
  main_until_build h s0 = (Raise e, s) -> main h s0 = (Raise e, s).
Proof.
  unfold main, main_until_build. intros H.
  do 2 py_step. rewrite !(bind_Ret _ _ _ _ _ (print_run _ _)) in H.
  cbn [files log] in H.
  rewrite <- bind_bind. now rewrite (bind_Raise _ _ _ _ _ H).
Qed.



(* ================================================================== *)
(** ** The build step *)




(* ================================================================== *)
(** ** The smoke test *)

(** [test_executable] always returns, and returns that verdict. *)
Lemma test_executable_returns (h : Host) (s : state) :
  let system := fst (get_platform_info h) in
  let arch := snd (get_platform_info h) in
  let exe := "dist/base-converter-" ++ system ++ "-" ++ arch
               ++ (if system =? "windows" then ".exe" else "") in
  exists s', test_executable h s = (Ret (smoke_verdict h exe (files s)), s').
Proof.
  intros system arch exe. unfold test_executable, smoke_verdict.
  destruct (get_platform_info h) as [sy ar] eqn:E. cbn [fst snd] in *.
  assert (Epath :
    Path_join "dist"
      (if sy =? "windows" then ("base-converter-" ++ sy ++ "-" ++ ar) ++ ".exe"
       else "base-converter-" ++ sy ++ "-" ++ ar) = exe).
  { subst exe system arch. unfold Path_join.
    destruct (sy =? "windows"); cbn [append]; [|now rewrite append_nil_r].
    now rewrite !append_assoc. }
  rewrite Epath. clearbody exe. clear Epath.
  destruct s as [t l]. py_step. destruct (t exe) as [e|]; cbn [negb].
  - destruct (launch h [fspath h exe; "--list-bases"] t) as [b t'] eqn:L.
    unfold try_except, bind at 1.
    rewrite (subprocess_run_timed _ _ _ _ _ _ _ L). cbn [fst].
    destruct b as [elapsed rc out err | | what | elapsed rc].
    + rewrite N.leb_antisym.
      destruct (10 <? elapsed)%N; cbn [negb andb].
      * py_step. unfold ret. eauto.
      * cbn [returncode stdout stderr].
        destruct ((rc =? 0)%Z && contains "Binary" out);
          py_step; unfold ret; eauto.
    + py_step. unfold ret. eauto.
    + py_step. unfold ret. eauto.
    + destruct (10 <? elapsed)%N; py_step; unfold ret; eauto.
  - py_step. unfold ret. eauto.
Qed.


(* ================================================================== *)
(** ** The installer scripts and the package information *)

Lemma tree_set_same (p : string) (e : entry) (t : tree) :
  tree_set p e t p = Some e.
Proof. unfold tree_set. now rewrite String.eqb_refl. Qed.

Lemma tree_set_other (p q : string) (e : entry) (t : tree) :
  q <> p -> tree_set p e t q = t q.
Proof. intros H. unfold tree_set. apply String.eqb_neq in H. now rewrite H. Qed.

Lemma create_windows_installer_run (h : Host) (t : tree) (l : list event) :
  open_error h t "install-windows.bat" = None ->
  create_windows_installer h (mkState t l) =
    (Ret tt,
     mkState
       (tree_set "install-windows.bat"
          (File (text_mode h (strip windows_installer_content))
             (mode_after_write h t "install-windows.bat")) t)
       (l ++ [Wrote "install-windows.bat" (strip windows_installer_content);
              Print "Created Windows installer script"])).
Proof.
  intros H. unfold create_windows_installer. do 2 py_step. now log_assoc.
Qed.

Lemma create_macos_installer_run (h : Host) (t : tree) (l : list event) :
  open_error h t "install-macos.sh" = None ->
  create_macos_installer h (mkState t l) =
    (Ret tt,
     mkState
       (tree_set "install-macos.sh"
          (File (text_mode h (strip macos_installer_content)) mode_0o755)
          (tree_set "install-macos.sh"
             (File (text_mode h (strip macos_installer_content))
                (mode_after_write h t "install-macos.sh")) t))
       (l ++ [Wrote "install-macos.sh" (strip macos_installer_content);
              Chmod "install-macos.sh" mode_0o755;
              Print "Created macOS installer script"])).
Proof.
  intros H. unfold create_macos_installer. py_step.
  rewrite (bind_Ret _ _ _ _ _ (chmod_run _ _ _ _ _ _ (tree_set_same _ _ _))).
  py_step. now log_assoc.
Qed.

Lemma create_linux_installer_run (h : Host) (t : tree) (l : list event) :
  open_error h t "install-linux.sh" = None ->
  create_linux_installer h (mkState t l) =
    (Ret tt,
     mkState
       (tree_set "install-linux.sh"
          (File (text_mode h (strip linux_installer_content)) mode_0o755)
          (tree_set "install-linux.sh"
             (File (text_mode h (strip linux_installer_content))
                (mode_after_write h t "install-linux.sh")) t))
       (l ++ [Wrote "install-linux.sh" (strip linux_installer_content);
              Chmod "install-linux.sh" mode_0o755;
              Print "Created Linux installer script"])).
Proof.
  intros H. unfold create_linux_installer. py_step.
  rewrite (bind_Ret _ _ _ _ _ (chmod_run _ _ _ _ _ _ (tree_set_same _ _ _))).
  py_step. now log_assoc.
Qed.

(** [create_installer_script] on any host, when the installer of the
    system can be opened: it returns, the installer is on disk, nothing
    else has changed, and the log has grown by one write, the [chmod]
    of the POSIX variants and one line. *)
Lemma create_installer_script_run (h : Host) (s : state) :
  let system := fst (get_platform_info h) in
  let name := installer_name system in
  let text := installer_text system in
  open_error h (files s) name = None ->
  exists s' mode,
    create_installer_script h s = (Ret tt, s') /\
    files s' name = Some (File (text_mode h text) mode) /\
    (system <> "windows" -> mode = mode_0o755) /\
    (forall q, q <> name -> files s' q = files s q) /\
    log s' =
      (log s ++ Wrote name text
         :: (if system =? "windows" then [] else [Chmod name mode_0o755])
         ++ [Print (installer_message system)])%list.
Proof.
  intros system name text. subst name text.
  unfold create_installer_script, installer_name, installer_text,
    installer_message.
  destruct (get_platform_info h) as [sy ar]. cbn [fst snd] in *. subst system.
  destruct s as [t l]. cbn [files].
  destruct (sy =? "windows") eqn:Ew; [|destruct (sy =? "darwin") eqn:Ed];
    intros Hopen.
  - rewrite (create_windows_installer_run _ _ _ Hopen).
    eexists; eexists; split; [reflexivity|]. cbn [files log].
    split; [apply tree_set_same|]. split; [|split; [|reflexivity]].
    + intros Hw. apply String.eqb_eq in Ew. contradiction.
    + intros q Hq. now apply tree_set_other.
  - rewrite (create_macos_installer_run _ _ _ Hopen).
    eexists; eexists; split; [reflexivity|]. cbn [files log].
    split; [apply tree_set_same|]. split; [reflexivity|split; [|reflexivity]].
    intros q Hq. now rewrite !tree_set_other.
  - rewrite (create_linux_installer_run _ _ _ Hopen).
    eexists; eexists; split; [reflexivity|]. cbn [files log].
    split; [apply tree_set_same|]. split; [reflexivity|split; [|reflexivity]].
    intros q Hq. now rewrite !tree_set_other.
Qed.

(** When the installer of the system cannot be opened, the error of
    [open] leaves [create_installer_script] and nothing has happened. *)
Lemma create_installer_script_refused (h : Host) (s : state) (what : string) :
  open_error h (files s) (installer_name (fst (get_platform_info h))) = Some what ->
  create_installer_script h s = (Raise (OtherException what), s).
Proof.
  unfold create_installer_script, installer_name.
  destruct (get_platform_info h) as [sy ar]. cbn [fst snd] in *.
  destruct (sy =? "windows"); [|destruct (sy =? "darwin")]; intros Hopen;
    apply bind_Raise; now apply write_text_refused.
Qed.

Lemma create_package_info_run (h : Host) (t : tree) (l : list event) :
  open_error h t "PACKAGE_INFO.txt" = None ->
  create_package_info h (mkState t l) =
    (Ret tt,
     mkState
       (tree_set "PACKAGE_INFO.txt"
          (File (text_mode h (strip (info_content h)))
             (mode_after_write h t "PACKAGE_INFO.txt")) t)
       (l ++ [Wrote "PACKAGE_INFO.txt" (strip (info_content h));
              Print "Created package information file"])).
Proof.
  intros H. unfold create_package_info. do 2 py_step. now log_assoc.
Qed.

Lemma create_package_info_refused (h : Host) (s : state) (what : string) :
  open_error h (files s) "PACKAGE_INFO.txt" = Some what ->
  create_package_info h s = (Raise (OtherException what), s).
Proof.
  intros H. unfold create_package_info.
  apply bind_Raise. now apply write_text_refused.
Qed.

Lemma installer_name_not_info (system : string) :
  installer_name system <> "PACKAGE_INFO.txt".
Proof.
  unfold installer_name.
  destruct (system =? "windows"); [|destruct (system =? "darwin")];
    discriminate.
Qed.




(* ================================================================== *)
(** ** The exit code *)

(** [main] from the smoke test on, once the build step has returned
    [True]: whatever the smoke test says, [main] goes on to the
    installer and the package information; it returns when both files
    can be opened, and is left by the error of [open] otherwise. *)
Lemma main_after_build (h : Host) (s0 s1 s2 : state) :
  main_until_build h s0 = (Ret tt, s1) ->
  build_executable h s1 = (Ret true, s2) ->
  let system := fst (get_platform_info h) in
  exists tested s3,
    test_executable h s2 = (Ret tested, s3) /\
    (forall what,
       open_error h (files s3) (installer_name system) = Some what ->
       main h s0 = (Raise (OtherException what), warned tested s3)) /\
    (open_error h (files s3) (installer_name system) = None ->
     exists s4,
       create_installer_script h (warned tested s3) = (Ret tt, s4) /\
       (forall what,
          open_error h (files s4) "PACKAGE_INFO.txt" = Some what ->
          main h s0 = (Raise (OtherException what), s4)) /\
       (open_error h (files s4) "PACKAGE_INFO.txt" = None ->
        exists final,
          main h s0 = (Ret tt, final) /\
          (tested = false ->
             In (Print "Warning: Executable test failed, but build completed")
                (log final)) /\
          file_bytes (files final) (installer_name system)
            = Some (text_mode h (installer_text system)) /\
          file_bytes (files final) "PACKAGE_INFO.txt"
            = Some (text_mode h (strip (info_content h))) /\
          In (Wrote (installer_name system) (installer_text system)) (log final) /\
          In (Wrote "PACKAGE_INFO.txt" (strip (info_content h))) (log final))).
Proof.
  intros Hreach Hbuild system.
  destruct (test_executable_returns h s2) as [s3 Htest].
  set (tested := smoke_verdict _ _ _) in Htest. clearbody tested.
  exists tested, s3.
  rewrite (main_from_build h _ _ Hreach).
  rewrite (bind_Ret _ _ _ _ _ Hbuild). cbn [negb].
  rewrite (bind_Ret _ _ _ _ _ (eq_refl : ret tt _ = (Ret tt, _))).
  rewrite (bind_Ret _ _ _ _ _ Htest).
  assert (Hwarn :
    (if negb tested
     then print "Warning: Executable test failed, but build completed"
     else ret tt) s3 = (Ret tt, warned tested s3)).
  { unfold warned. destruct tested; reflexivity. }
  rewrite (bind_Ret _ _ _ _ _ Hwarn).
  assert (Hfiles : files (warned tested s3) = files s3).
  { unfold warned. now destruct tested. }
  split; [exact Htest|]. split.
  - intros what Hopen. rewrite <- Hfiles in Hopen.
    now rewrite (bind_Raise _ _ _ _ _ (create_installer_script_refused h _ what Hopen)).
  - intros Hopen. rewrite <- Hfiles in Hopen.
    destruct (create_installer_script_run h _ Hopen)
      as (s4 & mode & Hinst & Hfile & _ & _ & Hlog).
    fold system in Hfile, Hlog.
    exists s4. split; [exact Hinst|].
    rewrite (bind_Ret _ _ _ _ _ Hinst). split.
    + intros what Hinfo.
      now rewrite (bind_Raise _ _ _ _ _ (create_package_info_refused h _ what Hinfo)).
    + intros Hinfo. destruct s4 as [t4 l4]. cbn [files log] in Hfile, Hlog, Hinfo.
      rewrite (bind_Ret _ _ _ _ _ (create_package_info_run _ _ _ Hinfo)).
      do 9 py_step.
      eexists. split; [reflexivity|]. cbn [files log].
      split; [|split; [|split; [|split]]].
      * intros ->. unfold warned in Hlog. cbn [log] in Hlog. rewrite Hlog. in_log.
      * unfold file_bytes.
        rewrite tree_set_other by apply installer_name_not_info.
        now rewrite Hfile.
      * unfold file_bytes. now rewrite tree_set_same.
      * rewrite Hlog. in_log.
      * in_log.
Qed.

(* ================================================================== *)
(** ** The packager configuration *)



(* ================================================================== *)
(** ** Runs on which the statements, read without their conditions, fail *)







(* ================================================================== *)
(** ** The theorems at work on the sample hosts *)









(* ================================================================== *)
(** ** Whole runs of the script on the sample hosts *)

Example run_on_linux :
  fst (script Sample.linux_amd64 Sample.used_tree) = Exited 0.
Proof. vm_compute. reflexivity. Qed.

Example run_on_linux_leaves :
  let final := snd (script Sample.linux_amd64 Sample.used_tree) in
  files final "dist/base-converter-linux-amd64" = Some (File "ELF" 493) /\
  files final "dist/base-converter" = None /\
  files final "dist/a" = None /\
  files final "build" = None /\
  file_bytes (files final) "install-linux.sh"
    = Some (strip linux_installer_content).
Proof. vm_compute. repeat split. Qed.

Example run_on_windows_shows_its_separator :
  In (Print "Created: dist\base-converter-windows-amd64.exe")
     (log (snd (script Sample.windows_amd64 Sample.empty_tree))).
Proof. vm_compute. tauto. Qed.

Example run_with_failing_packager :
  fst (script Sample.linux_failing_packager Sample.used_tree) = Exited 1.
Proof. vm_compute. reflexivity. Qed.

Example run_with_hanging_packager :
  fst (script Sample.linux_hanging_packager Sample.used_tree) = Never.
Proof. vm_compute. reflexivity. Qed.

Example run_with_slow_artifact :
  let final := snd (script Sample.linux_slow_artifact Sample.empty_tree) in
  fst (script Sample.linux_slow_artifact Sample.empty_tree) = Exited 0 /\
  In (Print "Executable test timed out") (log final) /\
  In (Print "Warning: Executable test failed, but build completed") (log final).
Proof. vm_compute. tauto. Qed.

Example run_with_hanging_artifact :
  fst (script Sample.linux_hanging_artifact Sample.empty_tree) = Exited 0.
Proof. vm_compute. reflexivity. Qed.

Example run_with_denied_rmtree :
  fst (script Sample.linux_dist_denied Sample.used_tree) = Exited 1.
Proof. vm_compute. reflexivity. Qed.

Example run_with_undecodable_output :
  fst (script Sample.linux_garbled_build Sample.used_tree) = Exited 1 /\
  files (snd (script Sample.linux_garbled_build Sample.used_tree))
    "dist/base-converter" = Some (File "ELF" 493).
Proof. split; vm_compute; reflexivity. Qed.

Example run_on_a_read_only_host :
  script (Sample.read_only Sample.linux_amd64) Sample.empty_tree
  = (Exited 1,
     mkState Sample.empty_tree
       [Print "Base Converter Build Script";
        Print (repeat_str "=" 40);
        Print "PyInstaller version: 6.3.0";
        Print "Building for linux-amd64..."]).
Proof. reflexivity. Qed.

Example run_with_lost_output :
  fst (script (Sample.closed_pipe Sample.linux_amd64) Sample.used_tree)
  = Exited 120.
Proof. vm_compute. reflexivity. Qed.

Example rename_onto_a_taken_name_on_windows :
  fst (rename Sample.windows_amd64 "a" "b"
         (mkState (tree_set "a" (File "1" 420)
                     (tree_set "b" (File "2" 420) Sample.empty_tree)) []))
  = Raise (OtherException "FileExistsError").
Proof. reflexivity. Qed.

(* ================================================================== *)
(** * Further properties of the script *)

(* ================================================================== *)
(** ** The platform tag *)

Lemma lower_char_idempotent (c : ascii) : lower_char (lower_char c) = lower_char c.
Proof. destruct c as [[] [] [] [] [] [] [] []]; reflexivity. Qed.

Lemma lower_idempotent (s : string) : lower (lower s) = lower s.
Proof.
  induction s as [|c s IH]; cbn [lower]; [reflexivity|].
  now rewrite lower_char_idempotent, IH.
Qed.

(** X1.  The platform tag is stable.  Both its parts are in lower case,
    and normalising the architecture a second time changes nothing: a
    host that reports the normalised architecture as its machine gets
    the same architecture.  In particular the architecture is never
    [x86_64] or [aarch64], and the only architectures that start with
    [arm] are [arm] and [arm64]. *)
Theorem platform_tag_is_stable (h : Host) :
  let system := fst (get_platform_info h) in
  let arch := snd (get_platform_info h) in
  lower system = system /\
  lower arch = arch /\
  snd (get_platform_info (Sample.with_machine h arch)) = arch /\
  arch <> "x86_64" /\ arch <> "aarch64" /\
  (startswith arch "arm" = true -> arch = "arm" \/ arch = "arm64").
Proof.
  intros system arch. subst system arch.
  unfold get_platform_info. cbn [fst snd Sample.with_machine platform_machine].
  set (m := lower (platform_machine h)).
  assert (Hm : lower m = m) by apply lower_idempotent.
  split; [apply lower_idempotent|].
  destruct (m =? "x86_64") eqn:E1.
  { repeat split; try discriminate; try reflexivity. }
  destruct ((m =? "aarch64") || (m =? "arm64")) eqn:E2.
  { repeat split; try discriminate; try reflexivity. now right. }
  destruct (startswith m "arm") eqn:E3.
  { repeat split; try discriminate; try reflexivity. now left. }
  rewrite Hm, E1, E2, E3.
  apply String.eqb_neq in E1. apply orb_false_iff in E2 as [E2 _].
  apply String.eqb_neq in E2.
  repeat split; auto. discriminate.
Qed.

(* ================================================================== *)
(** ** The package information *)

(** White space is stripped at the end only as far as the last
    character that is not white space: what stands before a text that
    does not strip to nothing is kept as it is. *)
Lemma rstrip_app (a b : string) :
  rstrip b <> EmptyString ->
  rstrip (a ++ b) = a ++ rstrip b /\ rstrip (a ++ b) <> EmptyString.
Proof.
  intros Hb. induction a as [|c a [IH IHne]]; cbn [append rstrip].
  - now split.
  - rewrite IH. destruct (a ++ rstrip b) eqn:E.
    + now rewrite <- IH in E.
    + split; [reflexivity | discriminate].
Qed.

Lemma rstrip_step (a r r' : string) :
  rstrip r = r' /\ r' <> EmptyString ->
  rstrip (a ++ r) = a ++ r' /\ a ++ r' <> EmptyString.
Proof.
  intros [<- Hne]. destruct (rstrip_app a r Hne) as [H1 H2].
  split; [exact H1 | now rewrite <- H1].
Qed.

(** The text of the package information, whatever the platform strings
    and the clock hold: the template, less its last line feed. *)
Lemma strip_info_content (h : Host) : strip (info_content h) = info_text h.
Proof.
  unfold strip, info_content, info_text.
  destruct (get_platform_info h) as [system arch]. cbn [fst snd].
  match goal with
  | |- rstrip (lstrip ?x) = _ => change (lstrip x) with x
  end.
  apply rstrip_step. do 9 apply rstrip_step.
  split; [vm_compute; reflexivity | discriminate].
Qed.


(* ================================================================== *)
(** ** More on cleaning *)

Lemma tree_prune_some_miss (d p : string) (gone : string -> bool) (t : tree) :
  under d p = false -> tree_prune_some d gone t p = t p.
Proof. unfold tree_prune_some. now intros ->. Qed.

(** Whatever [rmtree] of [d] does, it does it at [d] and below. *)
Lemma rmtree_spares (h : Host) (d : string) (s s' : state) (r : result unit) :
  rmtree h d s = (r, s') ->
  forall p, p <> d -> under d p = false -> files s' p = files s p.
Proof.
  unfold rmtree, bind, get_files, set_files, emit, raise. cbn [files log].
  destruct (files s d) as [[c m|]|].
  - now intros [= <- <-].
  - destruct (rmtree_fault h d (files s)) as [[what gone]|];
      intros [= <- <-] p Hne Hu; cbn [files].
    + now apply tree_prune_some_miss.
    + now apply tree_prune_miss.
  - now intros [= <- <-].
Qed.

Lemma clean_dir_spares (h : Host) (d : string) (s s' : state) (r : result unit) :
  clean_dir h d s = (r, s') ->
  forall p, p <> d -> under d p = false -> files s' p = files s p.
Proof.
  unfold clean_dir. py_step. destruct (files s d) as [ent|].
  - destruct (rmtree h d s) as [[[]|e|] s1] eqn:Hr;
      pose proof (rmtree_spares h d s s1 _ Hr) as Hsp.
    + rewrite (bind_Ret _ _ _ _ _ Hr), print_run. now intros [= <- <-].
    + rewrite (bind_Raise _ _ _ _ _ Hr). now intros [= <- <-].
    + rewrite (bind_Hang _ _ _ _ Hr). now intros [= <- <-].
  - now intros [= <- <-].
Qed.

Lemma for_each_clean_spares (h : Host) (ds : list string) :
  forall (s s' : state) (r : result unit),
    for_each ds (clean_dir h) s = (r, s') ->
    forall p,
      (forall d, In d ds -> p <> d /\ under d p = false) ->
      files s' p = files s p.
Proof.
  induction ds as [|d ds IH]; intros s s' r; cbn [for_each].
  - now intros [= <- <-].
  - intros Hrun p Hp.
    destruct (Hp d (or_introl eq_refl)) as [Hne Hu].
    destruct (clean_dir h d s) as [[[]|e|] s1] eqn:Hd;
      pose proof (clean_dir_spares h d s s1 _ Hd p Hne Hu) as Hsp.
    + rewrite (bind_Ret _ _ _ _ _ Hd) in Hrun.
      rewrite (IH _ _ _ Hrun p); [exact Hsp|].
      intros d' Hin. apply Hp. now right.
    + rewrite (bind_Raise _ _ _ _ _ Hd) in Hrun. now injection Hrun as <- <-.
    + rewrite (bind_Hang _ _ _ _ Hd) in Hrun. now injection Hrun as <- <-.
Qed.

Lemma cleaned_place_false (p : string) :
  cleaned_place p = false ->
  forall d, In d dirs_to_clean -> p <> d /\ under d p = false.
Proof.
  unfold cleaned_place. intros H d Hin.
  assert (Hd : (String.eqb p d || under d p) = false).
  { destruct (String.eqb p d || under d p) eqn:E; [|reflexivity].
    assert (Hex : existsb (fun d => String.eqb p d || under d p) dirs_to_clean = true)
      by (apply existsb_exists; eauto).
    congruence. }
  apply orb_false_iff in Hd as [Hne Hu]. split; [|exact Hu].
  now apply String.eqb_neq.
Qed.

(** X3.  [clean_build_dirs] never touches anything but [build], [dist],
    [__pycache__] and what lies below them: every other entry of the
    tree is after the call what it was before, whether the call
    returns or a removal fails part-way. *)
Theorem clean_build_dirs_spares_the_rest (h : Host) (s : state) (p : string) :
  cleaned_place p = false ->
  files (snd (clean_build_dirs h s)) p = files s p.
Proof.
  intros Hp. destruct (clean_build_dirs h s) as [r s'] eqn:Hrun. cbn [snd].
  apply (for_each_clean_spares h dirs_to_clean s s' r Hrun).
  now apply cleaned_place_false.
Qed.

Lemma clean_build_dirs_spares_the_rest_witness :
  cleaned_place "src/main.py" = false /\
  fst (clean_build_dirs Sample.linux_dist_denied
         (Sample.at_cleaning Sample.used_tree))
    = Raise (OtherException "PermissionError") /\
  files (snd (clean_build_dirs Sample.linux_dist_denied
                (Sample.at_cleaning Sample.used_tree))) "src/main.py"
    = Some (File "print()" 420).
Proof.
  split; [reflexivity|]. split; [reflexivity|].
  rewrite (clean_build_dirs_spares_the_rest Sample.linux_dist_denied
             (Sample.at_cleaning Sample.used_tree) "src/main.py" eq_refl).
  reflexivity.
Defined.

(** Nothing at any of the names: the loop does nothing. *)
Lemma for_each_clean_nothing (h : Host) (ds : list string) (s : state) :
  (forall d, In d ds -> files s d = None) ->
  for_each ds (clean_dir h) s = (Ret tt, s).
Proof.
  induction ds as [|d ds IH]; intros Hnone; cbn [for_each]; [reflexivity|].
  destruct s as [t l].
  rewrite (bind_Ret _ _ _ _ _
             (clean_dir_absent h d t l (Hnone d (or_introl eq_refl)))).
  apply IH. intros d' Hin. apply Hnone. now right.
Qed.

(** X4.  Cleaning twice is cleaning once: after a [clean_build_dirs]
    that has returned, a second one finds nothing to remove, changes
    neither the tree nor the log and returns. *)
Theorem clean_build_dirs_twice (h : Host) (s s' : state) :
  clean_build_dirs h s = (Ret tt, s') ->
  clean_build_dirs h s' = (Ret tt, s').
Proof.
  intros Hrun. unfold clean_build_dirs in *.
  apply for_each_clean_nothing.
  destruct (for_each_clean_shrinks h dirs_to_clean s s' _ Hrun) as (_ & Hgone & _).
  now apply Hgone.
Qed.

Lemma clean_build_dirs_twice_witness :
  let s' := snd (clean_build_dirs Sample.linux_amd64
                   (Sample.at_cleaning Sample.used_tree)) in
  clean_build_dirs Sample.linux_amd64 (Sample.at_cleaning Sample.used_tree)
    = (Ret tt, s') /\
  clean_build_dirs Sample.linux_amd64 s' = (Ret tt, s').
Proof.
  intros s'. split; [reflexivity|].
  apply (clean_build_dirs_twice Sample.linux_amd64
           (Sample.at_cleaning Sample.used_tree) s' eq_refl).
Defined.

(* ================================================================== *)
(** ** More on the installer scripts *)

Lemma tree_set_twice (p q : string) (e e' : entry) (t : tree) :
  tree_set p e (tree_set p e' t) q = tree_set p e t q.
Proof. unfold tree_set. now destruct (String.eqb q p). Qed.

Lemma mode_after_write_set (h : Host) (p c : string) (m : N) (t : tree) :
  mode_after_write h (tree_set p (File c m) t) p = m.
Proof. unfold mode_after_write. now rewrite tree_set_same. Qed.

(** X5.  Making the installer twice is making it once: a second
    [create_installer_script] leaves every entry of the tree as the
    first one left it, the installer included, with its bytes and its
    mode, whether the calls return or are left by an error of [open].
    And the first one changes nothing but the installer. *)
Theorem create_installer_script_twice (h : Host) (s : state) :
  let once := snd (create_installer_script h s) in
  let twice := snd (create_installer_script h once) in
  (forall q, files twice q = files once q) /\
  (forall q, q <> installer_name (fst (get_platform_info h)) ->
             files once q = files s q).
Proof.
  intros once twice. subst once twice.
  unfold create_installer_script, installer_name.
  destruct (get_platform_info h) as [sy ar]. cbn [fst snd].
  destruct s as [t l].
  destruct (sy =? "windows"); [|destruct (sy =? "darwin")].
  - destruct (open_error h t "install-windows.bat") as [what|] eqn:H1.
    + assert (R : create_windows_installer h (mkState t l)
                  = (Raise (OtherException what), mkState t l))
        by (apply bind_Raise; now apply write_text_refused).
      rewrite R. cbn [snd]. rewrite R. cbn [snd]. split; reflexivity.
    + rewrite (create_windows_installer_run _ _ _ H1). cbn [snd].
      match goal with
      | |- context [create_windows_installer h (mkState ?t1 ?l1)] =>
          destruct (open_error h t1 "install-windows.bat") as [what|] eqn:H2;
          [ assert (R : create_windows_installer h (mkState t1 l1)
                        = (Raise (OtherException what), mkState t1 l1))
              by (apply bind_Raise; now apply write_text_refused);
            rewrite R
          | rewrite (create_windows_installer_run _ _ _ H2) ]
      end; cbn [snd files]; (split; [|intros q Hq; now apply tree_set_other]).
      * reflexivity.
      * intros q. rewrite mode_after_write_set. apply tree_set_twice.
  - destruct (open_error h t "install-macos.sh") as [what|] eqn:H1.
    + assert (R : create_macos_installer h (mkState t l)
                  = (Raise (OtherException what), mkState t l))
        by (apply bind_Raise; now apply write_text_refused).
      rewrite R. cbn [snd]. rewrite R. cbn [snd]. split; reflexivity.
    + rewrite (create_macos_installer_run _ _ _ H1). cbn [snd].
      match goal with
      | |- context [create_macos_installer h (mkState ?t1 ?l1)] =>
          destruct (open_error h t1 "install-macos.sh") as [what|] eqn:H2;
          [ assert (R : create_macos_installer h (mkState t1 l1)
                        = (Raise (OtherException what), mkState t1 l1))
              by (apply bind_Raise; now apply write_text_refused);
            rewrite R
          | rewrite (create_macos_installer_run _ _ _ H2) ]
      end; cbn [snd files]; (split; [|intros q Hq; now rewrite !tree_set_other]).
      * reflexivity.
      * intros q. now rewrite !tree_set_twice.
  - destruct (open_error h t "install-linux.sh") as [what|] eqn:H1.
    + assert (R : create_linux_installer h (mkState t l)
                  = (Raise (OtherException what), mkState t l))
        by (apply bind_Raise; now apply write_text_refused).
      rewrite R. cbn [snd]. rewrite R. cbn [snd]. split; reflexivity.
    + rewrite (create_linux_installer_run _ _ _ H1). cbn [snd].
      match goal with
      | |- context [create_linux_installer h (mkState ?t1 ?l1)] =>
          destruct (open_error h t1 "install-linux.sh") as [what|] eqn:H2;
          [ assert (R : create_linux_installer h (mkState t1 l1)
                        = (Raise (OtherException what), mkState t1 l1))
              by (apply bind_Raise; now apply write_text_refused);
            rewrite R
          | rewrite (create_linux_installer_run _ _ _ H2) ]
      end; cbn [snd files]; (split; [|intros q Hq; now rewrite !tree_set_other]).
      * reflexivity.
      * intros q. now rewrite !tree_set_twice.
Qed.

(* ================================================================== *)
(** ** More on the build step *)

(** A program that cannot be started: [subprocess.run] raises what the
    operating system reports, whatever [check] and the timeout. *)
Lemma subprocess_run_cannot_start (h : Host) cmd check timeout t0 l0 what t :
  launch h cmd t0 = (CannotStart what, t) ->
  subprocess_run h cmd check timeout (mkState t0 l0) =
    (Raise (OtherException what), mkState t0 (l0 ++ [Run cmd])).
Proof.
  intros H. unfold subprocess_run, bind, emit, get_files, set_files.
  cbn [files log]. now rewrite H.
Qed.

(** What the script has printed and written when it launches the
    packaging tool. *)
Lemma build_executable_start (h : Host) (s : state) :
  open_error h (files s) "base-converter.spec" = None ->
  exists k,
    build_executable h s =
      try_except
        (result <- subprocess_run h (packager_cmd h) true None ;; k result)
        (fun e =>
           match e with
           | CalledProcessError _ _ _ err =>
               Some (print ("Build failed: " ++ exn_text h e) ;;
                     print ("Error output: " ++ err) ;;
                     ret false)
           | _ => None
           end)
        (mkState (files (snd (create_spec_file h s)))
           (log s ++
            [Print ("Building for " ++ fst (get_platform_info h) ++ "-"
                      ++ snd (get_platform_info h) ++ "...");
             Wrote "base-converter.spec" (strip spec_content);
             Print "Created PyInstaller spec file"])).
Proof.
  intros Hopen. unfold build_executable, packager_cmd.
  destruct (get_platform_info h) as [sy ar]. cbn [fst snd].
  eexists. do 2 py_step. rewrite (create_spec_file_run _ _ Hopen).
  cbn [snd files].
  log_assoc. reflexivity.
Qed.

(** X6.  [build_executable] catches one exception only, the nonzero
    exit of the packaging tool.  When the tool cannot be started at all
    the exception of the operating system leaves [build_executable]:
    nothing is reported, nothing is renamed, and [main], once at the
    build step, ends the process with exit code 1 (120 when the
    standard output is lost) without its line [Build failed!].  The
    tool is launched once the configuration has been written. *)
Theorem build_executable_lets_other_errors_through
    (h : Host) (s : state) (what : string) (t : tree) :
  open_error h (files s) "base-converter.spec" = None ->
  launch h (packager_cmd h) (files (snd (create_spec_file h s)))
    = (CannotStart what, t) ->
  let stopped :=
    mkState (files (snd (create_spec_file h s)))
      (log s ++
       [Print ("Building for " ++ fst (get_platform_info h) ++ "-"
                 ++ snd (get_platform_info h) ++ "...");
        Wrote "base-converter.spec" (strip spec_content);
        Print "Created PyInstaller spec file";
        Run (packager_cmd h)]) in
  build_executable h s = (Raise (OtherException what), stopped) /\
  (forall t0 : tree,
     main_until_build h (mkState t0 []) = (Ret tt, s) ->
     script h t0 = (Exited (exit_status h 1), stopped)).
Proof.
  intros Hopen Hrun stopped.
  assert (Hbuild : build_executable h s = (Raise (OtherException what), stopped)).
  { destruct (build_executable_start h s Hopen) as [k ->].
    erewrite try_except_Raise; cycle 1.
    { apply bind_Raise. apply (subprocess_run_cannot_start _ _ _ _ _ _ _ _ Hrun). }
    cbv beta iota. subst stopped. now log_assoc. }
  split; [exact Hbuild|].
  intros t0 Hreach. unfold script.
  rewrite (main_from_build h _ _ Hreach).
  now rewrite (bind_Raise _ _ _ _ _ Hbuild).
Qed.

Lemma build_executable_lets_other_errors_through_witness :
  let h := Sample.linux_no_interpreter in
  let s := Sample.at_cleaning Sample.empty_tree in
  fst (build_executable h s)
    = Raise (OtherException "FileNotFoundError: python3") /\
  fst (script h Sample.empty_tree) = Exited 1 /\
  ~ In (Print "Build failed!") (log (snd (script h Sample.empty_tree))).
Proof.
  intros h s.
  destruct (build_executable_lets_other_errors_through h s
              "FileNotFoundError: python3"
              (files (snd (create_spec_file h s))) eq_refl eq_refl)
    as [Hbuild Hmain].
  split; [now rewrite Hbuild|].
  rewrite (Hmain Sample.empty_tree eq_refl). cbn [fst snd log].
  split; [reflexivity|].
  cbn [In app]. intros H.
  repeat (destruct H as [H|H]; [discriminate H|]). exact H.
Defined.

(** The paths the build step puts together are [original_path] and
    [artifact_path]; they differ, and neither lies below the other. *)
Lemma build_paths (h : Host) :
  let system := fst (get_platform_info h) in
  let arch := snd (get_platform_info h) in
  Path_join "dist"
    (if system =? "windows" then "base-converter" ++ ".exe" else "base-converter")
    = original_path h /\
  Path_join "dist"
    ("base-converter-" ++ system ++ "-" ++ arch
       ++ (if system =? "windows" then ".exe" else "")) = artifact_path h /\
  String.eqb (original_path h) (artifact_path h) = false /\
  under (artifact_path h) (original_path h) = false /\
  under (original_path h) (artifact_path h) = false.
Proof.
  intros system arch. unfold original_path, artifact_path. fold system arch.
  destruct (system =? "windows"); repeat split; reflexivity.
Qed.

(** The build step after a packaging tool that has exited 0, as far as
    the test for the pre-rename path. *)
Lemma build_executable_after_tool (h : Host) (s : state) elapsed out err t :
  open_error h (files s) "base-converter.spec" = None ->
  launch h (packager_cmd h) (files (snd (create_spec_file h s)))
    = (Exits elapsed 0 out err, t) ->
  build_executable h s =
    try_except
      ((if match t (original_path h) with Some _ => true | None => false end
        then
          target_there <- path_exists (artifact_path h) ;;
          (if target_there then unlink (artifact_path h) else ret tt) ;;
          rename h (original_path h) (artifact_path h) ;;
          print ("Created: " ++ fspath h (artifact_path h))
        else ret tt) ;;
       ret true)
      (fun e =>
         match e with
         | CalledProcessError _ _ _ err =>
             Some (print ("Build failed: " ++ exn_text h e) ;;
                   print ("Error output: " ++ err) ;;
                   ret false)
         | _ => None
         end)
      (mkState t (log s ++ build_log_ok h out)).
Proof.
  intros Hopen Hrun. unfold build_executable, build_log_ok.
  destruct (build_paths h) as (Eo & Et & _).
  destruct (get_platform_info h) as [sy ar]. cbn [fst snd] in *.
  unfold packager_cmd in *.
  rewrite (create_spec_file_run _ _ Hopen) in Hrun.
  cbn [snd files log] in Hrun.
  do 2 py_step. rewrite Eo, Et.
  unfold try_except.
  rewrite (bind_Ret _ _ _ _ _ (subprocess_run_checked_ok _ _ _ _ _ _ _ _ Hrun)).
  cbn [stdout]. do 3 py_step. log_assoc. reflexivity.
Qed.

(** X7.  A directory at the name of the artifact stops the build step.
    The script unlinks what is at that name before it renames, and
    [unlink] raises on a directory; no clause catches that, so
    [build_executable] raises after its line [Build successful!],
    with the executable still at the pre-rename path and nothing
    renamed.  This holds whenever the configuration could be written,
    so that the tool was launched. *)
Theorem build_executable_stops_at_a_directory
    (h : Host) (s : state) (elapsed : N) (out err : string) (t : tree)
    (e : entry) :
  open_error h (files s) "base-converter.spec" = None ->
  launch h (packager_cmd h) (files (snd (create_spec_file h s)))
    = (Exits elapsed 0 out err, t) ->
  t (original_path h) = Some e ->
  t (artifact_path h) = Some Dir ->
  build_executable h s =
    (Raise (OtherException "IsADirectoryError"),
     mkState t (log s ++ build_log_ok h out)).
Proof.
  intros Hopen Hrun Horig Hdir.
  rewrite (build_executable_after_tool h s _ _ _ _ Hopen Hrun).
  rewrite Horig.
  erewrite try_except_Raise; cycle 1.
  { apply bind_Raise. py_step. rewrite Hdir.
    apply bind_Raise.
    unfold unlink, bind, get_files. cbn [files log]. now rewrite Hdir. }
  reflexivity.
Qed.

Lemma build_executable_stops_at_a_directory_witness :
  let h := Sample.linux_blocked_target in
  let s := Sample.fresh in
  fst (build_executable h s) = Raise (OtherException "IsADirectoryError") /\
  files (snd (build_executable h s)) "dist/base-converter"
    = Some (File "ELF" 493) /\
  files (snd (build_executable h s)) "dist/base-converter-linux-amd64"
    = Some Dir.
Proof.
  intros h s.
  rewrite (build_executable_stops_at_a_directory h s 30 "built" ""
             (snd (launch h (packager_cmd h) (files (snd (create_spec_file h s)))))
             (File "ELF" 493) eq_refl eq_refl eq_refl eq_refl).
  repeat split.
Defined.

(** The build step after a packaging tool that has exited 0 and left
    something at the pre-rename path, the name of the artifact being
    free or held by a file: the state it returns in. *)
Lemma build_executable_renamed (h : Host) (s : state) elapsed out err t e :
  open_error h (files s) "base-converter.spec" = None ->
  launch h (packager_cmd h) (files (snd (create_spec_file h s)))
    = (Exits elapsed 0 out err, t) ->
  t (original_path h) = Some e ->
  (t (artifact_path h) = None \/
   exists old_bytes old_mode, t (artifact_path h) = Some (File old_bytes old_mode)) ->
  build_executable h s =
    (Ret true,
     mkState
       (tree_move (original_path h) (artifact_path h)
          match t (artifact_path h) with
          | Some _ => tree_remove (artifact_path h) t
          | None => t
          end)
       (log s ++ build_log_ok h out
          ++ match t (artifact_path h) with
             | Some _ => [Unlinked (artifact_path h)]
             | None => []
             end
          ++ [Renamed (original_path h) (artifact_path h);
              Print ("Created: " ++ fspath h (artifact_path h))])).
Proof.
  intros Hopen Hrun Horig Htarget.
  rewrite (build_executable_after_tool h s _ _ _ _ Hopen Hrun).
  rewrite Horig.
  destruct (build_paths h) as (_ & _ & Hne & _).
  destruct Htarget as [Hfree | (ob & om & Hold)].
  - erewrite try_except_Ret; cycle 1.
    { rewrite !bind_bind.
      rewrite (bind_Ret _ _ _ _ _ (path_exists_run _ _)). cbn [files].
      rewrite Hfree. cbv iota. rewrite !bind_bind.
      rewrite (bind_Ret _ _ _ _ _ (eq_refl : ret tt _ = (Ret tt, _))).
      rewrite !bind_bind.
      rewrite (bind_Ret _ _ _ _ _ (rename_run _ _ _ _ _ _ Horig Hfree)).
      py_step. reflexivity. }
    rewrite Hfree. now log_assoc.
  - assert (Horig' : tree_remove (artifact_path h) t (original_path h) = Some e).
    { unfold tree_remove. now rewrite Hne. }
    erewrite try_except_Ret; cycle 1.
    { rewrite !bind_bind.
      rewrite (bind_Ret _ _ _ _ _ (path_exists_run _ _)). cbn [files].
      rewrite Hold. cbv iota. rewrite !bind_bind.
      rewrite (bind_Ret _ _ _ _ _ (unlink_run _ _ _ _ _ Hold)).
      rewrite !bind_bind.
      rewrite (bind_Ret _ _ _ _ _ (rename_run _ _ _ _ _ _ Horig' (tree_remove_same _ _))).
      py_step. reflexivity. }
    rewrite Hold. now log_assoc.
Qed.

(** X8.  The rename of the build step disturbs nothing else.  After a
    build step that has renamed, every entry that is neither at nor
    below the pre-rename path or the path of the artifact is what the
    packaging tool left.  The build step is one in which the
    configuration could be written, so that the tool was launched. *)
Theorem build_executable_renames_only_the_artifact
    (h : Host) (s : state) (elapsed : N) (out err : string) (t : tree)
    (e : entry) (p : string) :
  open_error h (files s) "base-converter.spec" = None ->
  launch h (packager_cmd h) (files (snd (create_spec_file h s)))
    = (Exits elapsed 0 out err, t) ->
  t (original_path h) = Some e ->
  (t (artifact_path h) = None \/
   exists old_bytes old_mode, t (artifact_path h) = Some (File old_bytes old_mode)) ->
  p <> original_path h -> under (original_path h) p = false ->
  p <> artifact_path h -> under (artifact_path h) p = false ->
  fst (build_executable h s) = Ret true /\
  files (snd (build_executable h s)) p = t p /\
  files (snd (build_executable h s)) (artifact_path h) = Some e /\
  files (snd (build_executable h s)) (original_path h) = None.
Proof.
  intros Hopen Hrun Horig Htarget Hpo Huo Hpa Hua.
  rewrite (build_executable_renamed h s _ _ _ _ _ Hopen Hrun Horig Htarget).
  cbn [fst snd files].
  destruct (build_paths h) as (_ & _ & Hne & Hu & _).
  apply String.eqb_neq in Hpo, Hpa.
  assert (Hkept :
    match t (artifact_path h) with
    | Some _ => tree_remove (artifact_path h) t
    | None => t
    end (original_path h) = Some e).
  { destruct (t (artifact_path h)); [|exact Horig].
    unfold tree_remove. now rewrite Hne. }
  repeat split.
  - unfold tree_move. rewrite Hpa, Hua, Hpo, Huo. cbn [orb].
    destruct (t (artifact_path h)); [|reflexivity].
    unfold tree_remove. now rewrite Hpa.
  - unfold tree_move. now rewrite String.eqb_refl.
  - unfold tree_move. now rewrite Hne, Hu, String.eqb_refl.
Qed.

Lemma build_executable_renames_only_the_artifact_witness :
  let h := Sample.windows_amd64 in
  let s := mkState (tree_set "dist/notes.txt" (File "keep" 420)
                      (files Sample.stale_windows)) [] in
  files (snd (build_executable h s)) "dist/notes.txt" = Some (File "keep" 420) /\
  files (snd (build_executable h s)) "dist/base-converter-windows-amd64.exe"
    = Some (File "ELF" 493).
Proof.
  intros h s.
  destruct (build_executable_renames_only_the_artifact h s 30 "built" ""
              (snd (launch h (packager_cmd h) (files (snd (create_spec_file h s)))))
              (File "ELF" 493) "dist/notes.txt" eq_refl eq_refl eq_refl
              (or_intror (ex_intro _ "old" (ex_intro _ 493%N eq_refl)))
              ltac:(discriminate) eq_refl ltac:(discriminate) eq_refl)
    as (_ & Hkept & Hmoved & _).
  split; [rewrite Hkept; reflexivity | exact Hmoved].
Defined.

(* ================================================================== *)
(** ** More on the smoke test *)

Lemma smoke_test_path (h : Host) :
  let system := fst (get_platform_info h) in
  let arch := snd (get_platform_info h) in
  Path_join "dist"
    (if system =? "windows"
     then ("base-converter-" ++ system ++ "-" ++ arch) ++ ".exe"
     else "base-converter-" ++ system ++ "-" ++ arch) = artifact_path h.
Proof.
  intros system arch. unfold artifact_path, Path_join. fold system arch.
  destruct (system =? "windows"); cbn [append]; [|now rewrite append_nil_r].
  now rewrite !append_assoc.
Qed.

(** What [test_executable] does to the tree and to the log. *)
Lemma test_executable_effects (h : Host) (s : state) :
  let exe := artifact_path h in
  let cmd := [fspath h exe; "--list-bases"] in
  let s' := snd (test_executable h s) in
  (files s exe = None ->
   files s' = files s /\
   log s' = (log s ++ [Print ("Executable not found: " ++ fspath h exe)])%list) /\
  (files s exe <> None ->
   (files s' = files s \/ files s' = snd (launch h cmd (files s))) /\
   exists line, log s' = (log s ++ [Run cmd; Print line])%list).
Proof.
  intros exe cmd s'. subst s' cmd exe.
  unfold test_executable. pose proof (smoke_test_path h) as Epath.
  destruct (get_platform_info h) as [sy ar]. cbn [fst snd] in Epath.
  rewrite Epath. clear Epath.
  destruct s as [t l]. py_step.
  destruct (t (artifact_path h)) as [e|]; cbn [negb]; split;
    try (intros H; now elim H); try discriminate.
  - intros _.
    destruct (launch h [fspath h (artifact_path h); "--list-bases"] t)
      as [b t'] eqn:L.
    cbn [snd].
    set (run := try_except _ _ _).
    assert (Hr : exists verdict tf line,
               run = (Ret verdict,
                      mkState tf
                        (l ++ [Run [fspath h (artifact_path h); "--list-bases"];
                               Print line]))
               /\ (tf = t \/ tf = t')).
    { subst run. unfold try_except, bind at 1.
      rewrite (subprocess_run_timed _ _ _ _ _ _ _ L).
      destruct b as [elapsed rc out err | | what | elapsed rc].
      - destruct (10 <? elapsed)%N.
        + py_step. unfold ret. eexists _, _, _.
          split; [log_assoc; reflexivity | now right].
        + cbn [returncode stdout stderr].
          destruct ((rc =? 0)%Z && contains "Binary" out);
            py_step; unfold ret; eexists _, _, _;
            (split; [log_assoc; reflexivity | now right]).
      - py_step. unfold ret. eexists _, _, _.
        split; [log_assoc; reflexivity | now right].
      - py_step. unfold ret. eexists _, _, _.
        split; [log_assoc; reflexivity | now left].
      - destruct (10 <? elapsed)%N; py_step; unfold ret; eexists _, _, _;
          (split; [log_assoc; reflexivity | now right]). }
    destruct Hr as (verdict & tf & line & -> & Htf). cbn [snd files log].
    split; [exact Htf | eauto].
Qed.

(** X9.  The smoke test is an observer.  [test_executable] launches the
    artifact at most once, prints exactly one line and performs no
    file-system action of its own: when nothing is at the path of the
    artifact the tree is untouched and nothing is launched; otherwise
    the tree afterwards is the tree before, or the one the launched
    program has left. *)
Theorem test_executable_only_observes (h : Host) (s : state) :
  let exe := artifact_path h in
  let cmd := [fspath h exe; "--list-bases"] in
  let s' := snd (test_executable h s) in
  (files s exe = None ->
   files s' = files s /\
   log s' = (log s ++ [Print ("Executable not found: " ++ fspath h exe)])%list) /\
  (files s exe <> None ->
   (files s' = files s \/ files s' = snd (launch h cmd (files s))) /\
   exists line, log s' = (log s ++ [Run cmd; Print line])%list).
Proof. exact (test_executable_effects h s). Qed.

Lemma test_executable_only_observes_witness :
  let s := mkState (tree_set "dist/base-converter-linux-amd64"
                      (File "ELF" 493) Sample.empty_tree) [] in
  files (snd (test_executable Sample.linux_amd64 Sample.fresh))
    = files Sample.fresh /\
  exists line,
    log (snd (test_executable Sample.linux_amd64 s))
    = [Run ["dist/base-converter-linux-amd64"; "--list-bases"]; Print line].
Proof.
  intros s. split.
  - apply (proj1 (test_executable_only_observes Sample.linux_amd64 Sample.fresh)).
    reflexivity.
  - destruct (proj2 (test_executable_only_observes Sample.linux_amd64 s))
      as [_ Hlog]; [discriminate|exact Hlog].
Defined.



(* ================================================================== *)
(** ** The packaging tool is missing *)

(** An installation that exits with a nonzero code. *)
Lemma subprocess_run_inherited_failed (h : Host) cmd t0 l0 elapsed rc out err t :
  launch h cmd t0 = (Exits elapsed rc out err, t) ->
  rc <> 0%Z ->
  subprocess_run_inherited h cmd true (mkState t0 l0) =
    (Raise (CalledProcessError cmd rc "" ""), mkState t (l0 ++ [Run cmd])).
Proof.
  intros H Hrc. unfold subprocess_run_inherited, bind, emit, get_files, set_files.
  cbn [files log]. rewrite H. cbn [files log andb].
  apply Z.eqb_neq in Hrc. now rewrite Hrc.
Qed.

(** X11.  When the packaging tool cannot be imported, [main] installs
    it before anything else; when that installation exits with a
    nonzero code the process ends with exit code 1 at once (120 when
    the standard output is lost): no directory has been cleaned,
    nothing has been written, and the tree is the one the installer
    has left. *)
Theorem failed_installation_is_fatal
    (h : Host) (t0 : tree) (elapsed : N) (rc : Z) (out err : string) (t : tree) :
  pyinstaller_version h = None ->
  launch h (pip_cmd h) t0 = (Exits elapsed rc out err, t) ->
  rc <> 0%Z ->
  script h t0 =
    (Exited (exit_status h 1),
     mkState t [Print "Base Converter Build Script";
                Print (repeat_str "=" 40);
                Print "PyInstaller not found. Installing...";
                Run (pip_cmd h)]).
Proof.
  intros Hv Hrun Hrc. unfold script.
  rewrite (main_stops_before_build h _
             (mkState t [Print "Base Converter Build Script";
                         Print (repeat_str "=" 40);
                         Print "PyInstaller not found. Installing...";
                         Run (pip_cmd h)])
             (CalledProcessError (pip_cmd h) rc "" ""));
    [reflexivity|].
  unfold main_until_build. rewrite Hv. do 2 py_step.
  apply bind_Raise. py_step. apply bind_Raise.
  unfold pip_cmd in *.
  rewrite (subprocess_run_inherited_failed _ _ _ _ _ _ _ _ _ Hrun Hrc).
  reflexivity.
Qed.

Lemma failed_installation_is_fatal_witness :
  fst (script Sample.linux_without_tool Sample.used_tree) = Exited 1 /\
  files (snd (script Sample.linux_without_tool Sample.used_tree)) "build"
    = Some Dir.
Proof.
  rewrite (failed_installation_is_fatal Sample.linux_without_tool
             Sample.used_tree 5 1 "" "No matching distribution"
             Sample.used_tree eq_refl eq_refl ltac:(discriminate)).
  split; reflexivity.
Defined.

(* ================================================================== *)
(** ** What a run may do *)

Section Within.

Variable ok : event -> Prop.

Local Abbreviation obeys := (within ok ends_with_1).

Lemma within_ret {A} (a : A) : obeys (ret a).
Proof.
  intros s s' r [= <- <-]. split; [|discriminate].
  exists []. now rewrite app_nil_r.
Qed.

Lemma within_raise {A} (e : exn) : ends_with_1 e -> obeys (@raise A e).
Proof.
  intros He s s' r [= <- <-]. split; [|now intros e' [= <-]].
  exists []. now rewrite app_nil_r.
Qed.

Lemma within_hang {A} : obeys (fun s => (@Hang A, s)).
Proof.
  intros s s' r [= <- <-]. split; [|discriminate].
  exists []. now rewrite app_nil_r.
Qed.

Lemma within_emit (e : event) : ok e -> obeys (emit e).
Proof.
  intros He s s' r [= <- <-]. split; [|discriminate].
  exists [e]. split; [reflexivity | now constructor].
Qed.

Lemma within_get_files : obeys get_files.
Proof.
  intros s s' r [= <- <-]. split; [|discriminate].
  exists []. now rewrite app_nil_r.
Qed.

Lemma within_set_files (t : tree) : obeys (set_files t).
Proof.
  intros s s' r [= <- <-]. split; [|discriminate].
  exists []. cbn [log]. now rewrite app_nil_r.
Qed.

Lemma within_path_exists (p : string) : obeys (path_exists p).
Proof.
  intros s s' r [= <- <-]. split; [|discriminate].
  exists []. now rewrite app_nil_r.
Qed.

Lemma within_bind {A B} (m : M A) (k : A -> M B) :
  obeys m -> (forall a, obeys (k a)) -> obeys (bind m k).
Proof.
  intros Hm Hk s s' r. unfold bind.
  destruct (m s) as [[a|e|] s1] eqn:E;
    destruct (Hm _ _ _ E) as [(evs & Hlog & Hok) Hexn].
  - intros Hrun. destruct (Hk a _ _ _ Hrun) as [(evs' & Hlog' & Hok') Hexn'].
    split; [|exact Hexn'].
    exists (evs ++ evs')%list. rewrite Hlog', Hlog, app_assoc.
    split; [reflexivity | now apply Forall_app].
  - intros [= <- <-]. split; [eauto|]. intros e' [= <-]. now apply Hexn.
  - intros [= <- <-]. split; [eauto | discriminate].
Qed.

Lemma within_try_except {A} (body : M A) (handler : exn -> option (M A)) :
  obeys body ->
  (forall e recover, handler e = Some recover -> obeys recover) ->
  obeys (try_except body handler).
Proof.
  intros Hb Hh s s' r. unfold try_except.
  destruct (body s) as [[a|e|] s1] eqn:E;
    destruct (Hb _ _ _ E) as [(evs & Hlog & Hok) Hexn].
  - intros [= <- <-]. split; [eauto | discriminate].
  - destruct (handler e) as [recover|] eqn:Eh.
    + intros Hrun.
      destruct (Hh e recover Eh _ _ _ Hrun) as [(evs' & Hlog' & Hok') Hexn'].
      split; [|exact Hexn'].
      exists (evs ++ evs')%list. rewrite Hlog', Hlog, app_assoc.
      split; [reflexivity | now apply Forall_app].
    + intros [= <- <-]. split; [eauto|]. intros e' [= <-]. now apply Hexn.
  - intros [= <- <-]. split; [eauto | discriminate].
Qed.

Lemma within_for_each {A} (xs : list A) (body : A -> M unit) :
  (forall x, In x xs -> obeys (body x)) -> obeys (for_each xs body).
Proof.
  induction xs as [|x xs IH]; intros Hb; cbn [for_each].
  - apply within_ret.
  - apply within_bind.
    + apply Hb. now left.
    + intros _. apply IH. intros y Hy. apply Hb. now right.
Qed.

Lemma within_print (line : string) : ok (Print line) -> obeys (print line).
Proof. apply within_emit. Qed.

Variable h : Host.

Lemma within_write_text (p text : string) :
  ok (Wrote p text) -> obeys (write_text h p text).
Proof.
  intros H. unfold write_text.
  apply within_bind; [apply within_get_files|]. intros t.
  destruct (open_error h t p) as [what|]; [now apply within_raise|].
  apply within_bind; [apply within_set_files|]. intros _.
  now apply within_emit.
Qed.

Lemma within_chmod (p : string) (mode : N) :
  ok (Chmod p mode) -> obeys (chmod p mode).
Proof.
  intros H. unfold chmod.
  apply within_bind; [apply within_get_files|]. intros t.
  destruct (t p) as [[c m|]|].
  - apply within_bind; [apply within_set_files|]. intros _.
    now apply within_emit.
  - now apply within_emit.
  - now apply within_raise.
Qed.

Lemma within_unlink (p : string) : ok (Unlinked p) -> obeys (unlink p).
Proof.
  intros H. unfold unlink.
  apply within_bind; [apply within_get_files|]. intros t.
  destruct (t p) as [[c m|]|]; try now apply within_raise.
  apply within_bind; [apply within_set_files|]. intros _.
  now apply within_emit.
Qed.

Lemma within_rename (src dst : string) :
  ok (Renamed src dst) -> obeys (rename h src dst).
Proof.
  intros H. unfold rename.
  apply within_bind; [apply within_get_files|]. intros t.
  assert (Hmove : obeys (set_files (tree_move src dst t) ;; emit (Renamed src dst))).
  { apply within_bind; [apply within_set_files|]. intros _.
    now apply within_emit. }
  destruct (t src) as [e|]; [|now apply within_raise].
  destruct (t dst) as [d|]; [|exact Hmove].
  destruct (lower (platform_system h) =? "windows"); [now apply within_raise|].
  destruct e, d; first [exact Hmove | now apply within_raise].
Qed.

Lemma within_rmtree (d : string) : ok (Rmtree d) -> obeys (rmtree h d).
Proof.
  intros H. unfold rmtree.
  apply within_bind; [apply within_get_files|]. intros t.
  destruct (t d) as [[c m|]|]; try now apply within_raise.
  destruct (rmtree_fault h d t) as [[what gone]|].
  - apply within_bind; [apply within_set_files|]. intros _.
    now apply within_raise.
  - apply within_bind; [apply within_set_files|]. intros _.
    now apply within_emit.
Qed.

Lemma within_subprocess_run (cmd : list string) (check : bool) (timeout : option N) :
  ok (Run cmd) -> obeys (subprocess_run h cmd check timeout).
Proof.
  intros H. unfold subprocess_run.
  apply within_bind; [now apply within_emit|]. intros _.
  apply within_bind; [apply within_get_files|]. intros t.
  destruct (launch h cmd t) as [[elapsed rc out err | | what | elapsed rc] t'].
  - apply within_bind; [apply within_set_files|]. intros _.
    destruct timeout as [limit|].
    + destruct (limit <? elapsed)%N; [now apply within_raise|].
      destruct (check && negb (rc =? 0)%Z);
        [now apply within_raise | apply within_ret].
    + destruct (check && negb (rc =? 0)%Z);
        [now apply within_raise | apply within_ret].
  - apply within_bind; [apply within_set_files|]. intros _.
    destruct timeout; [now apply within_raise | apply within_hang].
  - now apply within_raise.
  - apply within_bind; [apply within_set_files|]. intros _.
    destruct timeout as [limit|]; [|now apply within_raise].
    destruct (limit <? elapsed)%N; now apply within_raise.
Qed.

Lemma within_subprocess_run_inherited (cmd : list string) (check : bool) :
  ok (Run cmd) -> obeys (subprocess_run_inherited h cmd check).
Proof.
  intros H. unfold subprocess_run_inherited.
  apply within_bind; [now apply within_emit|]. intros _.
  apply within_bind; [apply within_get_files|]. intros t.
  destruct (launch h cmd t) as [[elapsed rc out err | | what | elapsed rc] t'].
  - apply within_bind; [apply within_set_files|]. intros _.
    destruct (check && negb (rc =? 0)%Z);
      [now apply within_raise | apply within_ret].
  - apply within_bind; [apply within_set_files|]. intros _. apply within_hang.
  - now apply within_raise.
  - apply within_bind; [apply within_set_files|]. intros _.
    destruct (check && negb (rc =? 0)%Z);
      [now apply within_raise | apply within_ret].
Qed.

End Within.

Section Footprint.

Variable ok : event -> Prop.
Variable h : Host.

Local Abbreviation obeys := (within ok ends_with_1).

Hypothesis ok_print : forall line, ok (Print line).

(** A statement of the script shown to stay within [ok]: the
    combinators first, then the library calls, each leaving its event
    to be checked. *)
Ltac footprint :=
  repeat match goal with
         | |- within _ _ (ret _) => apply within_ret
         | |- within _ _ (bind _ _) => apply within_bind; [|intros ?]
         | |- within _ _ (if ?c then _ else _) => destruct c
         | |- within _ _ (print _) => apply within_print; apply ok_print
         | |- within _ _ (path_exists _) => apply within_path_exists
         | |- within _ _ (sys_exit _) => apply within_raise; reflexivity
         | |- within _ _ (write_text _ _ _) => apply within_write_text
         | |- within _ _ (chmod _ _) => apply within_chmod
         | |- within _ _ (unlink _) => apply within_unlink
         | |- within _ _ (rename _ _ _) => apply within_rename
         | |- within _ _ (rmtree _ _) => apply within_rmtree
         | |- within _ _ (subprocess_run _ _ _ _) =>
             apply within_subprocess_run
         | |- within _ _ (subprocess_run_inherited _ _ _) =>
             apply within_subprocess_run_inherited
         end.

Lemma clean_build_dirs_within :
  (forall d, In d dirs_to_clean -> ok (Rmtree d)) ->
  obeys (clean_build_dirs h).
Proof.
  intros Hrm. apply within_for_each. intros d Hd. unfold clean_dir.
  footprint. now apply Hrm.
Qed.

Lemma create_spec_file_within :
  (forall text, ok (Wrote "base-converter.spec" text)) ->
  obeys (create_spec_file h).
Proof. intros Hw. unfold create_spec_file. footprint. apply Hw. Qed.

Lemma build_executable_within :
  (forall text, ok (Wrote "base-converter.spec" text)) ->
  ok (Run (packager_cmd h)) ->
  ok (Unlinked (artifact_path h)) ->
  ok (Renamed (original_path h) (artifact_path h)) ->
  obeys (build_executable h).
Proof.
  intros Hw Hrun Hun Hre. unfold build_executable.
  pose proof (build_paths h) as (Eo & Et & _).
  unfold packager_cmd in Hrun.
  destruct (get_platform_info h) as [sy ar] eqn:E. cbn [fst snd] in Eo, Et.
  rewrite Eo, Et.
  apply within_bind; [apply within_print; apply ok_print|]. intros _.
  apply within_bind; [now apply create_spec_file_within|]. intros _.
  apply within_try_except.
  - footprint; assumption.
  - intros e recover. destruct e; try discriminate.
    intros [= <-]. footprint.
Qed.

Lemma test_executable_within :
  ok (Run [fspath h (artifact_path h); "--list-bases"]) ->
  obeys (test_executable h).
Proof.
  intros Hrun. unfold test_executable. pose proof (smoke_test_path h) as Epath.
  destruct (get_platform_info h) as [sy ar]. cbn [fst snd] in Epath.
  rewrite Epath. footprint.
  apply within_try_except.
  - footprint. assumption.
  - intros e recover. destruct e; try discriminate; intros [= <-]; footprint.
Qed.

Lemma create_installer_script_within :
  (forall text, ok (Wrote (installer_name (fst (get_platform_info h))) text)) ->
  ok (Chmod (installer_name (fst (get_platform_info h))) mode_0o755) ->
  obeys (create_installer_script h).
Proof.
  unfold create_installer_script, installer_name.
  destruct (get_platform_info h) as [sy ar]. cbn [fst snd].
  destruct (sy =? "windows"); [|destruct (sy =? "darwin")]; intros Hw Hc.
  - unfold create_windows_installer. footprint. apply Hw.
  - unfold create_macos_installer. footprint; [apply Hw | exact Hc].
  - unfold create_linux_installer. footprint; [apply Hw | exact Hc].
Qed.

Lemma create_package_info_within :
  (forall text, ok (Wrote "PACKAGE_INFO.txt" text)) ->
  obeys (create_package_info h).
Proof. intros Hw. unfold create_package_info. footprint. apply Hw. Qed.

Lemma main_within :
  (forall d, In d dirs_to_clean -> ok (Rmtree d)) ->
  (forall text, ok (Wrote "base-converter.spec" text)) ->
  (forall text, ok (Wrote (installer_name (fst (get_platform_info h))) text)) ->
  (forall text, ok (Wrote "PACKAGE_INFO.txt" text)) ->
  ok (Chmod (installer_name (fst (get_platform_info h))) mode_0o755) ->
  (pyinstaller_version h = None -> ok (Run (pip_cmd h))) ->
  ok (Run (packager_cmd h)) ->
  ok (Run [fspath h (artifact_path h); "--list-bases"]) ->
  ok (Unlinked (artifact_path h)) ->
  ok (Renamed (original_path h) (artifact_path h)) ->
  obeys (main h).
Proof.
  intros Hrm Hspec Hinst Hinfo Hchmod Hpip Hpack Htest Hun Hre.
  unfold main.
  apply within_bind; [apply within_print; apply ok_print|]. intros _.
  apply within_bind; [apply within_print; apply ok_print|]. intros _.
  apply within_bind.
  { destruct (pyinstaller_version h); footprint. now apply Hpip. }
  intros _.
  apply within_bind; [now apply clean_build_dirs_within|]. intros _.
  apply within_bind; [now apply build_executable_within|]. intros built.
  apply within_bind; [footprint|]. intros _.
  apply within_bind; [now apply test_executable_within|]. intros tested.
  apply within_bind; [footprint|]. intros _.
  apply within_bind; [now apply create_installer_script_within|]. intros _.
  apply within_bind; [now apply create_package_info_within|]. intros _.
  footprint.
Qed.

End Footprint.

(** [main] on a host stays within what is [allowed] there. *)
Lemma main_allowed (h : Host) : within (allowed h) ends_with_1 (main h).
Proof.
  apply main_within; cbn [allowed]; auto.
Qed.

(** Exit code 0 is the exit code of a [main] that has returned, with a
    standard output that could be flushed. *)
Lemma script_exit_0 (h : Host) (t0 : tree) (final : state) :
  script h t0 = (Exited 0, final) <->
  main h (mkState t0 []) = (Ret tt, final) /\ stdout_lost h = false.
Proof.
  unfold script. split.
  - intros Hscript.
    destruct (main h (mkState t0 [])) as [r s] eqn:Hmain.
    destruct (main_allowed h _ _ _ Hmain) as [_ Hexn].
    destruct r as [[]|e|]; [| |discriminate Hscript].
    + injection Hscript as Hcode <-.
      now destruct (exit_status_0 h 0 Hcode).
    + specialize (Hexn e eq_refl). exfalso.
      assert (Hcode : exit_status h 1 = 0%Z).
      { destruct e; cbn [ends_with_1] in Hexn; subst;
          now injection Hscript as -> _. }
      now apply (exit_status_nonzero h 1).
  - intros [-> Hout]. unfold exit_status. now rewrite Hout.
Qed.

(** X12.  The footprint of the script.  Whatever the host does, every
    action in the log of a run is one of these: a print; the launch of
    the installer of the packaging tool, of the packaging tool or of
    the built artifact; the removal of [build], [dist] or
    [__pycache__]; the writing of [base-converter.spec], of the
    installer of the system or of [PACKAGE_INFO.txt]; the [chmod] of
    that installer to 0o755; the unlinking of the artifact's path; the
    rename of the packaged executable to that path.  The script never
    writes, removes or renames anything else. *)
Theorem script_stays_in_its_footprint (h : Host) (t0 : tree) :
  Forall (allowed h) (log (snd (script h t0))).
Proof.
  unfold script.
  destruct (main h (mkState t0 [])) as [r s] eqn:Hmain.
  destruct (main_allowed h _ _ _ Hmain) as [(evs & Hlog & Hok) _].
  cbn [log app] in Hlog.
  assert (Hs : Forall (allowed h) (log s)) by now rewrite Hlog.
  destruct r as [a|e|]; [exact Hs | | exact Hs].
  destruct e; exact Hs.
Qed.




(** A program that never ends before the build step keeps [main]
    waiting there. *)
Lemma main_hangs_before_build (h : Host) (s0 s : state) :
  main_until_build h s0 = (Hang, s) -> main h s0 = (Hang, s).
Proof.
  unfold main, main_until_build. intros H.
  do 2 py_step. rewrite !(bind_Ret _ _ _ _ _ (print_run _ _)) in H.
  cbn [files log] in H.
  rewrite <- bind_bind. now rewrite (bind_Hang _ _ _ _ H).
Qed.

(** [main] returns only by way of a build step that has returned
    [True]. *)
Lemma main_returns (h : Host) (s0 final : state) :
  main h s0 = (Ret tt, final) ->
  exists s1 s2,
    main_until_build h s0 = (Ret tt, s1) /\
    build_executable h s1 = (Ret true, s2).
Proof.
  intros Hmain.
  destruct (main_until_build h s0) as [[[]|e|] s1] eqn:Hp.
  - rewrite (main_from_build h _ _ Hp) in Hmain.
    destruct (build_executable h s1) as [[[|]|e|] s2] eqn:Hb.
    + eauto.
    + rewrite (bind_Ret _ _ _ _ _ Hb) in Hmain. cbn [negb] in Hmain.
      rewrite bind_bind in Hmain.
      rewrite (bind_Ret _ _ _ _ _ (print_run _ _)) in Hmain.
      discriminate Hmain.
    + rewrite (bind_Raise _ _ _ _ _ Hb) in Hmain. discriminate Hmain.
    + rewrite (bind_Hang _ _ _ _ Hb) in Hmain. discriminate Hmain.
  - rewrite (main_stops_before_build h _ _ _ Hp) in Hmain. discriminate Hmain.
  - rewrite (main_hangs_before_build h _ _ Hp) in Hmain. discriminate Hmain.
Qed.

(** X14.  Exit code 0 is earned.  A run that ends with exit code 0 has
    gone through the whole pipeline: the build step has returned
    [True], and the installer of the system and [PACKAGE_INFO.txt] are
    on disk with the bytes the script gives them. *)
Theorem exit_code_0_means_packaged (h : Host) (t0 : tree) (final : state) :
  script h t0 = (Exited 0, final) ->
  let system := fst (get_platform_info h) in
  (exists s1 s2,
     main_until_build h (mkState t0 []) = (Ret tt, s1) /\
     build_executable h s1 = (Ret true, s2)) /\
  file_bytes (files final) (installer_name system)
    = Some (text_mode h (installer_text system)) /\
  file_bytes (files final) "PACKAGE_INFO.txt"
    = Some (text_mode h (info_text h)).
Proof.
  intros Hscript system. unfold script in Hscript.
  destruct (main h (mkState t0 [])) as [r s] eqn:Hmain.
  destruct (main_allowed h _ _ _ Hmain) as [_ Hexn].
  destruct r as [[]|e|]; [| |discriminate Hscript].
  - injection Hscript as _ <-.
    destruct (main_returns h _ _ Hmain) as (s1 & s2 & Hreach & Hbuild).
    split; [eauto|].
    destruct (main_after_build h _ _ _ Hreach Hbuild)
      as (tested & s3 & _ & Hno_inst & Hgo).
    fold system in Hno_inst, Hgo.
    destruct (open_error h (files s3) (installer_name system)) as [what|].
    { rewrite (Hno_inst what eq_refl) in Hmain. discriminate Hmain. }
    destruct (Hgo eq_refl) as (s4 & _ & Hno_info & Hdone).
    destruct (open_error h (files s4) "PACKAGE_INFO.txt") as [what|].
    { rewrite (Hno_info what eq_refl) in Hmain. discriminate Hmain. }
    destruct (Hdone eq_refl) as (final' & Hmain' & _ & Hinst & Hinfo & _).
    rewrite Hmain in Hmain'. injection Hmain' as <-.
    rewrite <- strip_info_content. now split.
  - specialize (Hexn e eq_refl). exfalso.
    assert (Hcode : exit_status h 1 = 0%Z).
    { destruct e; cbn [ends_with_1] in Hexn; subst;
        now injection Hscript as -> _. }
    now apply (exit_status_nonzero h 1).
Qed.

Lemma exit_code_0_means_packaged_witness :
  let final := snd (script Sample.linux_amd64 Sample.used_tree) in
  fst (script Sample.linux_amd64 Sample.used_tree) = Exited 0 /\
  file_bytes (files final) "install-linux.sh"
    = Some (strip linux_installer_content) /\
  exists bytes, file_bytes (files final) "PACKAGE_INFO.txt" = Some bytes.
Proof.
  intros final.
  assert (Hcode : fst (script Sample.linux_amd64 Sample.used_tree) = Exited 0)
    by (vm_compute; reflexivity).
  split; [exact Hcode|].
  assert (Hscript : script Sample.linux_amd64 Sample.used_tree = (Exited 0, final)).
  { rewrite <- Hcode. apply surjective_pairing. }
  destruct (exit_code_0_means_packaged Sample.linux_amd64 Sample.used_tree
              final Hscript)
    as (_ & Hinst & Hinfo).
  split; [exact Hinst | eauto].
Defined.

(* ================================================================== *)
(** ** The installer and the artifact *)

(** A name made of a system that is not [linux] and does not start with
    [linux-], a dash and more, does not start with [linux-]. *)
Lemma not_a_linux_name (system rest : string) :
  system <> "linux" ->
  startswith system "linux-" = false ->
  String.prefix "linux-" (system ++ "-" ++ rest) = false.
Proof.
  unfold startswith. intros Hne Hpre.
  repeat (destruct system as [|? system];
          [ try reflexivity; try (now elim Hne)
          | cbn [String.prefix append] in Hpre |- *;
            match goal with
            | |- context [ascii_dec ?a ?b] =>
                destruct (ascii_dec a b); [subst|reflexivity]
            end ]).
  destruct system; discriminate Hpre.
Qed.

(** X15.  The installer looks for the artifact by a wildcard.  On
    linux, darwin and windows the wildcard of the installer written
    matches the file name the build step gives the artifact.  On every
    other system the installer written is the linux one, whose
    wildcard is [base-converter-linux-*], while the artifact is named
    after the system: the name does not start with
    [base-converter-linux-], so this installer does not find the
    artifact built beside it. *)
Theorem installer_wildcard_and_artifact_name (h : Host) (s : state) :
  let system := fst (get_platform_info h) in
  let name := artifact_name h in
  let text := installer_text system in
  (fst (create_installer_script h s) = Ret tt ->
   In (Wrote (installer_name system) text)
      (log (snd (create_installer_script h s)))) /\
  artifact_path h = "dist/" ++ name /\
  (system = "linux" ->
     contains "cp base-converter-linux-* " text = true /\
     startswith name "base-converter-linux-" = true) /\
  (system = "darwin" ->
     contains "cp base-converter-darwin-* " text = true /\
     startswith name "base-converter-darwin-" = true) /\
  (system = "windows" ->
     contains "copy base-converter-windows-*.exe " text = true /\
     startswith name "base-converter-windows-" = true /\
     exists stem, name = stem ++ ".exe") /\
  (system <> "linux" -> system <> "darwin" -> system <> "windows" ->
   startswith system "linux-" = false ->
     contains "cp base-converter-linux-* " text = true /\
     startswith name "base-converter-linux-" = false).
Proof.
  intros system name text. subst name text.
  split.
  { destruct (open_error h (files s) (installer_name system)) as [what|] eqn:Hopen.
    - rewrite (create_installer_script_refused h s what Hopen). discriminate.
    - destruct (create_installer_script_run h s Hopen)
        as (s' & mode & Hrun & _ & _ & _ & Hlog).
      rewrite Hrun. cbn [snd]. rewrite Hlog. fold system. intros _. in_log. }
  unfold artifact_name, artifact_path. fold system.
  generalize (snd (get_platform_info h)) as arch. intros arch.
  clearbody system.
  split; [reflexivity|].
  split; [|split; [|split]].
  - intros ->. split; [reflexivity|].
    exact (prefix_app "base-converter-linux-" (arch ++ "")).
  - intros ->. split; [reflexivity|].
    exact (prefix_app "base-converter-darwin-" (arch ++ "")).
  - intros ->. split; [reflexivity|]. split.
    + exact (prefix_app "base-converter-windows-" (arch ++ ".exe")).
    + exists ("base-converter-windows-" ++ arch).
      change ("windows" =? "windows") with true. cbv iota.
      now rewrite !append_assoc.
  - intros Hl Hd Hw Hpre.
    apply String.eqb_neq in Hd, Hw.
    unfold installer_text. rewrite Hw, Hd.
    split; [reflexivity|].
    unfold startswith. cbn.
    repeat match goal with
           | |- context [ascii_dec ?a ?a] =>
               destruct (ascii_dec a a) as [_|n]; [|now elim n]
           end.
    now apply not_a_linux_name.
Qed.

Lemma installer_wildcard_and_artifact_name_witness :
  let h := Sample.freebsd_amd64 in
  artifact_name h = "base-converter-freebsd-amd64" /\
  contains "cp base-converter-linux-* "
    (installer_text (fst (get_platform_info h))) = true /\
  startswith (artifact_name h) "base-converter-linux-" = false.
Proof.
  intros h. split; [reflexivity|].
  apply (proj2 (proj2 (proj2 (proj2 (proj2
           (installer_wildcard_and_artifact_name h Sample.fresh))))));
    (discriminate || reflexivity).
Defined.

(* ================================================================== *)
(** ** The closing summary *)

(** When [main] returns, the last lines it has printed are the closing
    summary. *)
Lemma main_ends_with_the_summary (h : Host) (s0 final : state) :
  main h s0 = (Ret tt, final) ->
  exists l, log final = (l ++ closing_lines h)%list.
Proof.
  intros Hmain.
  destruct (main_returns h _ _ Hmain) as (s1 & s2 & Hreach & Hbuild).
  destruct (test_executable_returns h s2) as [s3 Htest].
  set (tested := smoke_verdict _ _ _) in Htest. clearbody tested.
  rewrite (main_from_build h _ _ Hreach) in Hmain.
  rewrite (bind_Ret _ _ _ _ _ Hbuild) in Hmain. cbn [negb] in Hmain.
  rewrite (bind_Ret _ _ _ _ _ (eq_refl : ret tt _ = (Ret tt, _))) in Hmain.
  rewrite (bind_Ret _ _ _ _ _ Htest) in Hmain.
  destruct ((if negb tested
             then print "Warning: Executable test failed, but build completed"
             else ret tt) s3) as [r3 s3'] eqn:Hwarn.
  assert (r3 = Ret tt) as -> by (destruct tested; now injection Hwarn as <- _).
  rewrite (bind_Ret _ _ _ _ _ Hwarn) in Hmain.
  destruct (open_error h (files s3') (installer_name (fst (get_platform_info h))))
    as [what|] eqn:Ho.
  { rewrite (bind_Raise _ _ _ _ _ (create_installer_script_refused h s3' what Ho))
      in Hmain.
    discriminate Hmain. }
  destruct (create_installer_script_run h s3' Ho) as (s4 & mode & Hinst & _).
  rewrite (bind_Ret _ _ _ _ _ Hinst) in Hmain.
  destruct s4 as [t4 l4].
  destruct (open_error h t4 "PACKAGE_INFO.txt") as [what|] eqn:Hi.
  { rewrite (bind_Raise _ _ _ _ _
               (create_package_info_refused h (mkState t4 l4) what Hi)) in Hmain.
    discriminate Hmain. }
  rewrite (bind_Ret _ _ _ _ _ (create_package_info_run _ _ _ Hi)) in Hmain.
  unfold closing_lines.
  repeat (rewrite (bind_Ret _ _ _ _ _ (print_run _ _)) in Hmain;
          cbn [files log] in Hmain).
  rewrite print_run in Hmain. cbn [files log] in Hmain.
  injection Hmain as <-. cbn [log].
  exists (l4 ++ [Wrote "PACKAGE_INFO.txt" (strip (info_content h));
                 Print "Created package information file"])%list.
  log_assoc. reflexivity.
Qed.

Lemma append_longer (a : string) (c : ascii) (r : string) : a <> a ++ String c r.
Proof.
  intros H. apply (f_equal String.length) in H.
  assert (L : forall x y, String.length (x ++ y) = String.length x + String.length y).
  { intros x y. induction x as [|? x IH]; cbn; [reflexivity | now rewrite IH]. }
  rewrite L in H. cbn in H. lia.
Qed.

(** X16.  The closing summary names the artifact without its suffix.
    A run that ends with exit code 0 ends with the nine lines of the
    summary, the third of which names
    [dist/base-converter-<os>-<arch>].  On every system but windows
    that is the path of the artifact; on windows it is not: the
    artifact is at that path with [.exe] added. *)
Theorem summary_names_the_artifact_without_suffix
    (h : Host) (t0 : tree) (final : state) :
  script h t0 = (Exited 0, final) ->
  let system := fst (get_platform_info h) in
  let arch := snd (get_platform_info h) in
  let named := "dist/base-converter-" ++ system ++ "-" ++ arch in
  (exists l, log final = (l ++ closing_lines h)%list) /\
  In (Print ("- " ++ named)) (log final) /\
  (system <> "windows" -> named = artifact_path h) /\
  (system = "windows" ->
   named <> artifact_path h /\ artifact_path h = named ++ ".exe").
Proof.
  intros Hscript system arch named.
  apply script_exit_0 in Hscript as [Hmain _].
  destruct (main_ends_with_the_summary h _ _ Hmain) as [l Hlog].
  split; [eauto|]. split.
  { rewrite Hlog. unfold closing_lines. fold system arch.
    apply in_or_app. right. cbn [In]. auto. }
  assert (Epath : artifact_path h =
                  named ++ (if system =? "windows" then ".exe" else "")).
  { unfold artifact_path, named. fold system arch.
    cbn [append]. now rewrite !append_assoc. }
  split.
  - intros Hw. apply String.eqb_neq in Hw. rewrite Epath, Hw.
    now rewrite append_nil_r.
  - intros Hw. rewrite Epath, Hw. cbn [String.eqb Ascii.eqb Bool.eqb].
    split; [apply append_longer | reflexivity].
Qed.

Lemma summary_names_the_artifact_without_suffix_witness :
  let final := snd (script Sample.windows_amd64 Sample.empty_tree) in
  In (Print "- dist/base-converter-windows-amd64") (log final) /\
  files final "dist/base-converter-windows-amd64" = None /\
  files final "dist/base-converter-windows-amd64.exe" = Some (File "ELF" 493).
Proof.
  intros final.
  assert (Hcode : fst (script Sample.windows_amd64 Sample.empty_tree) = Exited 0)
    by (vm_compute; reflexivity).
  assert (Hscript : script Sample.windows_amd64 Sample.empty_tree
                    = (Exited 0, final)).
  { rewrite <- Hcode. apply surjective_pairing. }
  destruct (summary_names_the_artifact_without_suffix Sample.windows_amd64
              Sample.empty_tree final Hscript)
    as (_ & Hline & _).
  split; [exact Hline|]. split; vm_compute; reflexivity.
Defined.

(* ================================================================== *)
(** ** Installing the packaging tool *)

(** X17.  The packaging tool is installed only when it is missing: on a
    host where it can be imported no run of the script ever launches
    its installation. *)
Theorem tool_is_installed_only_when_missing
    (h : Host) (t0 : tree) (version : string) :
  pyinstaller_version h = Some version ->
  ~ In (Run (pip_cmd h)) (log (snd (script h t0))).
Proof.
  intros Hv Hin.
  assert (Hmain : within (fun e => e <> Run (pip_cmd h)) ends_with_1 (main h)).
  { apply main_within; try discriminate; try (intros; discriminate).
    congruence. }
  unfold script in Hin.
  destruct (main h (mkState t0 [])) as [r s] eqn:E.
  destruct (Hmain _ _ _ E) as [(evs & Hlog & Hok) _].
  cbn [log app] in Hlog.
  assert (Hs : In (Run (pip_cmd h)) (log s)).
  { destruct r as [a|e|]; [exact Hin | | exact Hin]. destruct e; exact Hin. }
  rewrite Hlog in Hs.
  rewrite Forall_forall in Hok. now apply (Hok _ Hs).
Qed.

Lemma tool_is_installed_only_when_missing_witness :
  pyinstaller_version Sample.linux_amd64 = Some "6.3.0" /\
  ~ In (Run (pip_cmd Sample.linux_amd64))
       (log (snd (script Sample.linux_amd64 Sample.used_tree))).
Proof.
  split; [reflexivity|].
  exact (tool_is_installed_only_when_missing Sample.linux_amd64
           Sample.used_tree "6.3.0" eq_refl).
Defined.
